(** * Tyre Quotation Pro: the reconciliation core

    A shallow embedding of the parts of the quotation application that keep
    the local list of quotations coherent with the spreadsheet backend:

    - [googleSheets.ts]: [parseLineItems], [generateStableId],
      [normalizeQuote] and the three operations of [GoogleSheetsService];
    - the application component ([normalize], [getQuoteFingerprint],
      [getLocallyBlacklistedItems], [fetchRemoteQuotes], [handleSaveQuote],
      [handleDeleteQuote]);
    - [SavedQuotesList.tsx]: the totals of [QuoteCard].

    JavaScript strings are sequences of UTF-16 code units.  The model keeps
    the code units below 256 (one [ascii] each), which covers the Latin-1
    letters and the white space U+00A0; case mapping and white space outside
    that range are not modelled. *)

From Stdlib Require Import ZArith NArith List String Ascii Bool Lia DecimalString.
Import ListNotations.

Set Warnings "-register-all".

Local Open Scope string_scope.

(* ================================================================== *)
(** * JavaScript strings *)

Module JSString.

Definition charCode (c : ascii) : N := N_of_ascii c.

(** White space and line terminators: what [String.prototype.trim] strips
    and what the regular expression class [\s] matches.  Among the code
    units below 256 these are TAB, LF, VT, FF, CR, SPACE and NBSP. *)
Definition is_white_space (c : ascii) : bool :=
  let n := charCode c in
  ((9 <=? n) && (n <=? 13) || (n =? 32) || (n =? 160))%N.

(** [toLowerCase] on one code unit: A-Z and the Latin-1 capitals
    U+00C0-U+00DE (without the multiplication sign U+00D7). *)
Definition toLowerCase_char (c : ascii) : ascii :=
  let n := charCode c in
  if ((65 <=? n) && (n <=? 90)
      || (192 <=? n) && (n <=? 214)
      || (216 <=? n) && (n <=? 222))%N
  then ascii_of_N (n + 32) else c.

Fixpoint toLowerCase (s : string) : string :=
  match s with
  | EmptyString => EmptyString
  | String c s' => String (toLowerCase_char c) (toLowerCase s')
  end.

Fixpoint trimStart (s : string) : string :=
  match s with
  | EmptyString => EmptyString
  | String c s' => if is_white_space c then trimStart s' else s
  end.

Definition is_empty (s : string) : bool :=
  match s with EmptyString => true | String _ _ => false end.

Fixpoint trimEnd (s : string) : string :=
  match s with
  | EmptyString => EmptyString
  | String c s' =>
      let t := trimEnd s' in
      if is_white_space c && is_empty t then EmptyString else String c t
  end.

Definition trim (s : string) : string := trimEnd (trimStart s).

(** [s.replace(/\s+/g, ' ')]: every maximal run of white space becomes one
    space.  [in_run] tells that the previous code unit was white space, so
    the run's space has been written already. *)
Fixpoint replace_ws_runs (in_run : bool) (s : string) : string :=
  match s with
  | EmptyString => EmptyString
  | String c s' =>
      if is_white_space c
      then if in_run then replace_ws_runs true s'
           else String " " (replace_ws_runs true s')
      else String c (replace_ws_runs false s')
  end.

Fixpoint includes_char (c : ascii) (s : string) : bool :=
  match s with
  | EmptyString => false
  | String d s' => Ascii.eqb d c || includes_char c s'
  end.

(** [s.split(c)[0]]: the code units before the first [c], all of [s] when
    there is none. *)
Fixpoint split_head (c : ascii) (s : string) : string :=
  match s with
  | EmptyString => EmptyString
  | String d s' => if Ascii.eqb d c then EmptyString else String d (split_head c s')
  end.

Definition startsWith_char (c : ascii) (s : string) : bool :=
  match s with
  | EmptyString => false
  | String d _ => Ascii.eqb d c
  end.

End JSString.
Import JSString.

(* ================================================================== *)
(** * 32-bit integer operators and [generateStableId] *)

Module Int32.

(** [ToInt32]: wrap into [-2^31, 2^31). *)
Definition to_int32 (z : Z) : Z := ((z + 2 ^ 31) mod 2 ^ 32 - 2 ^ 31)%Z.

(** [a << n] *)
Definition shl (a n : Z) : Z := to_int32 (Z.shiftl (to_int32 a) n).

(** [a & b] *)
Definition and (a b : Z) : Z := Z.land (to_int32 a) (to_int32 b).

End Int32.

Definition digit36 (d : Z) : ascii :=
  if (d <? 10)%Z then ascii_of_N (48 + Z.to_N d) else ascii_of_N (87 + Z.to_N d).

(** The digits of [n] in base 36, most significant first, in front of
    [acc]; [fuel] bounds the number of digits. *)
Fixpoint toString36_digits (fuel : nat) (n : Z) (acc : string) : string :=
  match fuel with
  | O => acc
  | S fuel' =>
      let acc' := String (digit36 (n mod 36)) acc in
      if (n / 36 =? 0)%Z then acc' else toString36_digits fuel' (n / 36) acc'
  end.

(** [n.toString(36)] for an integer [n >= 0]. *)
Definition toString36 (n : Z) : string :=
  toString36_digits (S (Z.to_nat (Z.log2 n))) n EmptyString.

(** One turn of the loop of [generateStableId]:
    [hash = ((hash << 5) - hash) + char; hash = hash & hash]. *)
Definition hash_step (hash char : Z) : Z :=
  let hash := (Int32.shl hash 5 - hash + char)%Z in
  Int32.and hash hash.

Fixpoint hash_loop (str : string) (hash : Z) : Z :=
  match str with
  | EmptyString => hash
  | String c str' => hash_loop str' (hash_step hash (Z.of_N (charCode c)))
  end.

Definition generateStableId (str : string) : string :=
  if (String.length str =? 0)%nat then "unknown"
  else toString36 (Z.abs (hash_loop str 0%Z)).

(* ================================================================== *)
(** * JavaScript values *)

(** The values that reach this code: what [JSON.parse] builds, and
    [undefined] for a property that is not there.  An object lists its own
    properties, each key once. *)
Inductive value (number : Type) : Type :=
| VUndefined
| VNull
| VBool (b : bool)
| VNum (n : number)
| VStr (s : string)
| VArr (items : list (value number))
| VObj (fields : list (string * value number)).

Arguments VUndefined {number}.
Arguments VNull {number}.
Arguments VBool {number} b.
Arguments VNum {number} n.
Arguments VStr {number} s.
Arguments VArr {number} items.
Arguments VObj {number} fields.

(** What the JavaScript run time provides and this development does not
    look into: IEEE-754 numbers with their arithmetic and conversions, and
    the JSON parser. *)
Class Runtime : Type := {
  number : Type;
  num_of_Z : Z -> number;                    (* the literals [0], [18] *)
  num_nan : number;                          (* [NaN] *)
  num_truthy : number -> bool;               (* neither zero nor [NaN] *)
  num_same : number -> number -> bool;       (* SameValueZero *)
  num_to_string : number -> string;          (* [String(n)] *)
  string_to_number : string -> number;       (* [Number(s)] *)
  num_add : number -> number -> number;
  num_sub : number -> number -> number;
  num_mul : number -> number -> number;
  Math_round : number -> number;
  JSON_parse : string -> option (value number) (* [None]: SyntaxError *)
}.

Inductive JSError : Type :=
| TypeError                      (* a property of null, a call of a non-function *)
| SyntaxError                    (* [JSON.parse] *)
| FetchRejected                  (* [fetch] itself rejects: no response *)
| HttpError (status : Z)         (* "HTTP error! status: ..." *)
| HtmlResponse                   (* "Server returned HTML ..." *)
| InvalidFormat.                 (* "Invalid response format from server." *)

Inductive result (A : Type) : Type :=
| Returns (a : A)
| Throws (e : JSError).

Arguments Returns {A} a.
Arguments Throws {A} e.

Definition bind {A B : Type} (r : result A) (k : A -> result B) : result B :=
  match r with
  | Returns a => k a
  | Throws e => Throws e
  end.

Notation "'let*' x ':=' r 'in' k" := (bind r (fun x => k))
  (at level 10, x name, r at level 100, k at level 200).

(** [try { r } catch (e) { h }] *)
Definition try_catch {A : Type} (r : result A) (h : JSError -> result A) : result A :=
  match r with
  | Returns a => Returns a
  | Throws e => h e
  end.


Section Values.

Context {R : Runtime}.

Definition jsval : Type := value number.

(** [ToBoolean] *)
Definition truthy (v : jsval) : bool :=
  match v with
  | VUndefined | VNull => false
  | VBool b => b
  | VNum n => num_truthy n
  | VStr s => negb (is_empty s)
  | VArr _ | VObj _ => true
  end.

(** [a || b] *)
Definition js_or (a b : jsval) : jsval := if truthy a then a else b.

Fixpoint lookup (key : string) (fields : list (string * jsval)) : jsval :=
  match fields with
  | [] => VUndefined
  | (k, v) :: rest => if String.eqb k key then v else lookup key rest
  end.

(** [v.key] for a [v] that is neither [null] nor [undefined], and for the
    keys this program reads (none of them is inherited from a prototype):
    the property of an object, [undefined] on anything else. *)
Definition prop (v : jsval) (key : string) : jsval :=
  match v with
  | VObj fields => lookup key fields
  | _ => VUndefined
  end.

Definition is_nullish (v : jsval) : bool :=
  match v with
  | VUndefined | VNull => true
  | _ => false
  end.

(** [String(v)] *)
Fixpoint js_String (v : jsval) : string :=
  match v with
  | VUndefined => "undefined"
  | VNull => "null"
  | VBool true => "true"
  | VBool false => "false"
  | VNum n => num_to_string n
  | VStr s => s
  | VArr items =>
      (fix join (l : list jsval) : string :=
         match l with
         | [] => ""
         | x :: rest =>
             let sx := match x with
                       | VUndefined | VNull => ""
                       | _ => js_String x
                       end in
             match rest with
             | [] => sx
             | _ :: _ => sx ++ "," ++ join rest
             end
         end) items
  | VObj _ => "[object Object]"
  end.

(** [Number(v)] *)
Definition js_Number (v : jsval) : number :=
  match v with
  | VUndefined => num_nan
  | VNull => num_of_Z 0
  | VBool true => num_of_Z 1
  | VBool false => num_of_Z 0
  | VNum n => n
  | VStr s => string_to_number s
  | VArr _ | VObj _ => string_to_number (js_String v)
  end.

(** [a === b] where one side is a string. *)
Definition strict_eq_string (v : jsval) (s : string) : bool :=
  match v with
  | VStr t => String.eqb t s
  | _ => false
  end.

(** SameValueZero, the equality of [Set]: arrays and objects are compared
    by reference, and every array or object met here is a fresh one. *)
Definition same_value_zero (a b : jsval) : bool :=
  match a, b with
  | VUndefined, VUndefined => true
  | VNull, VNull => true
  | VBool x, VBool y => Bool.eqb x y
  | VNum x, VNum y => num_same x y
  | VStr x, VStr y => String.eqb x y
  | _, _ => false
  end.

End Values.

(* ================================================================== *)
(** * types.ts *)

Section Types.

Context {R : Runtime}.



(** [Quotation].  The fields that [normalizeQuote] copies from the remote
    record without a conversion hold whatever the record held, so they are
    values here; [lineItems] is the array of line-item objects;
    [isOptionQuote] is optional. *)
Record Quotation : Type := {
  id : string;
  quoteNumber : string;
  date : string;
  customerName : string;
  customerPhone : jsval;
  customerEmail : jsval;
  customerAddress : jsval;
  vehicleMake : jsval;
  vehicleModel : jsval;
  vehicleNo : jsval;
  lineItems : jsval;
  discount : number;
  taxRate : number;
  notes : jsval;
  status : jsval;
  isOptionQuote : option bool
}.

End Types.

(* ================================================================== *)
(** * googleSheets.ts: normalisation of remote records *)

Section Normalisation.

Context {R : Runtime}.

Definition parseLineItems (items : jsval) : jsval :=
  match items with
  | VArr _ => items
  | VStr s =>
      match JSON_parse s with
      | Some v => v
      | None => VArr []
      end
  | _ => VArr []
  end.

Definition isMissingId (id : string) : bool :=
  is_empty id || String.eqb id "undefined" || String.eqb id "null".

(** The signature hashed into a generated identifier. *)
Definition signature (customer dateStr quoteNum : string) : string :=
  toLowerCase customer ++ "|" ++ dateStr ++ "|" ++ toLowerCase quoteNum.

(** The three strings [normalizeQuote] starts from; [now] is
    [new Date().toISOString()]. *)
Definition quoteNum_of (data : jsval) : string :=
  trim (js_String (js_or (prop data "quoteNumber")
                         (js_or (prop data "quote_number") (VStr "")))).

Definition customer_of (data : jsval) : string :=
  trim (js_String (js_or (prop data "customerName")
                         (js_or (prop data "customer_name") (VStr "")))).

(** The date the record carries, cut at the [T] of an ISO time. *)
Definition date_text (data : jsval) : string :=
  let dateStr := trim (js_String (js_or (prop data "date")
                                        (js_or (prop data "Date") (VStr "")))) in
  if includes_char "T" dateStr then split_head "T" dateStr else dateStr.

Definition dateStr_of (now : string) (data : jsval) : string :=
  let dateStr := date_text data in
  if is_empty dateStr then split_head "T" now else dateStr.

Definition raw_id_of (data : jsval) : string :=
  trim (js_String (js_or (prop data "id") (js_or (prop data "Id") (VStr "")))).

Definition id_of (now : string) (data : jsval) : string :=
  let id := raw_id_of data in
  if isMissingId id
  then "gen_" ++ generateStableId
                   (signature (customer_of data) (dateStr_of now data) (quoteNum_of data))
  else id.

(** The object [normalizeQuote] returns, for a [data] whose properties
    can be read. *)
Definition normalized (now : string) (data : jsval) : Quotation :=
  {| id := id_of now data;
     quoteNumber := quoteNum_of data;
     date := dateStr_of now data;
     customerName := customer_of data;
     customerPhone :=
       js_or (prop data "customerPhone") (js_or (prop data "customer_phone") (VStr ""));
     customerEmail :=
       js_or (prop data "customerEmail") (js_or (prop data "customer_email") (VStr ""));
     customerAddress :=
       js_or (prop data "customerAddress") (js_or (prop data "customer_address") (VStr ""));
     vehicleMake :=
       js_or (prop data "vehicleMake") (js_or (prop data "vehicle_make") (VStr ""));
     vehicleModel :=
       js_or (prop data "vehicleModel") (js_or (prop data "vehicle_model") (VStr ""));
     vehicleNo :=
       js_or (prop data "vehicleNo") (js_or (prop data "vehicle_no") (VStr ""));
     lineItems :=
       parseLineItems (js_or (prop data "lineItems") (prop data "line_items"));
     discount := js_Number (js_or (prop data "discount") (VNum (num_of_Z 0)));
     taxRate :=
       js_Number
         (match prop data "taxRate" with
          | VUndefined =>
              match prop data "tax_rate" with
              | VUndefined => VNum (num_of_Z 18)
              | v => v
              end
          | v => v
          end);
     notes := js_or (prop data "notes") (VStr "");
     status := js_or (prop data "status") (VStr "Draft");
     isOptionQuote :=
       Some (truthy (js_or (prop data "isOptionQuote") (prop data "is_option_quote")))
  |}.

(** [normalizeQuote]: reading a property of [null] or [undefined] is a
    TypeError, and nothing else in the function throws. *)
Definition normalizeQuote (now : string) (data : jsval) : result Quotation :=
  if is_nullish data then Throws TypeError
  else Returns (normalized now data).

End Normalisation.

(* ================================================================== *)
(** * googleSheets.ts: [GoogleSheetsService] *)

(** What a [fetch] call comes to: it rejects (no connection), or it
    resolves with a response. *)
Record Response : Type := {
  resp_ok : bool;         (* [response.ok] *)
  resp_status : Z;        (* [response.status] *)
  resp_text : string      (* [await response.text()] *)
}.

Inductive FetchOutcome : Type :=
| Rejected
| Responded (resp : Response).

(** [await fetch(...)] *)
Definition await_fetch (net : FetchOutcome) : result Response :=
  match net with
  | Rejected => Throws FetchRejected
  | Responded resp => Returns resp
  end.

Section Service.

Context {R : Runtime}.

Definition isArray (v : jsval) : bool :=
  match v with
  | VArr _ => true
  | _ => false
  end.

Definition array_items (v : jsval) : list jsval :=
  match v with
  | VArr items => items
  | _ => []
  end.

(** [rawData.map(normalizeQuote)]: the first record that makes
    [normalizeQuote] throw ends the loop. *)
Fixpoint map_normalizeQuote (now : string) (rawData : list jsval)
  : result (list Quotation) :=
  match rawData with
  | [] => Returns []
  | data :: rest =>
      let* q := normalizeQuote now data in
      let* qs := map_normalizeQuote now rest in
      Returns (q :: qs)
  end.

Definition is_Deleted (q : Quotation) : bool :=
  strict_eq_string (status q) "Deleted".

(** The envelope shapes of [fetchQuotes]; any other shape leaves
    [rawData] empty. *)
Definition rawData_of (result : jsval) : list jsval :=
  if strict_eq_string (prop result "status") "success" && isArray (prop result "data")
  then array_items (prop result "data")
  else if isArray result then array_items result
  else if truthy (prop result "data") && isArray (prop result "data")
  then array_items (prop result "data")
  else [].

(** [fetchQuotes]; the outer [catch] logs and throws the error again.
    [now] is the clock of the records' [new Date()]. *)
Definition fetchQuotes (now : string) (net : FetchOutcome) : result (list Quotation) :=
  let* response := await_fetch net in
  if negb (resp_ok response) then Throws (HttpError (resp_status response))
  else
    let text := resp_text response in
    if startsWith_char "<" (trim text) then Throws HtmlResponse
    else
      let* result := match JSON_parse text with
                     | Some v => Returns v
                     | None => Throws InvalidFormat
                     end in
      if is_nullish result then Throws TypeError
      else
        let* normalized := map_normalizeQuote now (rawData_of result) in
        Returns (filter (fun q => negb (is_Deleted q)) normalized).

(** [saveQuote], from the response on; the request is [saveQuote_request]. *)
Definition saveQuote (net : FetchOutcome) : result unit :=
  let* response := await_fetch net in
  let text := resp_text response in
  try_catch
    (let* result := match JSON_parse text with
                    | Some v => Returns v
                    | None => Throws SyntaxError
                    end in
     if is_nullish result then Throws TypeError   (* [result.status] *)
     else Returns tt)                             (* at most a warning *)
    (fun _ =>
       if startsWith_char "<" (trim text) then Throws HtmlResponse
       else Returns tt).

(** ** Request bodies *)

Fixpoint obj_set (key : string) (v : jsval) (fields : list (string * jsval))
  : list (string * jsval) :=
  match fields with
  | [] => [(key, v)]
  | (k, w) :: rest =>
      if String.eqb k key then (k, v) :: rest else (k, w) :: obj_set key v rest
  end.

Definition Quotation_fields (q : Quotation) : list (string * jsval) :=
  ([("id", VStr (id q));
   ("quoteNumber", VStr (quoteNumber q));
   ("date", VStr (date q));
   ("customerName", VStr (customerName q));
   ("customerPhone", customerPhone q);
   ("customerEmail", customerEmail q);
   ("customerAddress", customerAddress q);
   ("vehicleMake", vehicleMake q);
   ("vehicleModel", vehicleModel q);
   ("vehicleNo", vehicleNo q);
   ("lineItems", lineItems q);
   ("discount", VNum (discount q));
   ("taxRate", VNum (taxRate q));
   ("notes", notes q);
   ("status", status q)]
  ++ match isOptionQuote q with
     | Some b => [("isOptionQuote", VBool b)]
     | None => []
     end)%list.

Inductive Action : Type := action_save | action_delete.

(** A POST to [webAppUrl?action=...] with the JSON of [body]. *)
Record Request : Type := {
  req_action : Action;
  req_body : jsval
}.

Definition saveQuote_request (quote : Quotation) : Request :=
  {| req_action := action_save;
     req_body := VObj [("action", VStr "save");
                       ("quote", VObj (obj_set "id" (VStr (id quote))
                                               (Quotation_fields quote)))] |}.

Definition softDeleteQuote (quote : Quotation) : list (string * jsval) :=
  obj_set "quote_number" (VStr (quoteNumber quote))
    (obj_set "ID" (VStr (id quote))
       (obj_set "Id" (VStr (id quote))
          (obj_set "status" (VStr "Deleted") (Quotation_fields quote)))).

Definition savePayload (quote : Quotation) : Request :=
  {| req_action := action_save;
     req_body := VObj [("action", VStr "save");
                       ("quote", VObj (softDeleteQuote quote))] |}.

Definition deletePayload (quote : Quotation) : Request :=
  {| req_action := action_delete;
     req_body := VObj [("action", VStr "delete");
                       ("id", VStr (id quote));
                       ("Id", VStr (id quote));
                       ("ID", VStr (id quote));
                       ("quote_number", VStr (quoteNumber quote));
                       ("quoteNumber", VStr (quoteNumber quote))] |}.

(** How [deleteQuote] treats a request it sends. *)
Inductive Handling : Type :=
| Awaited            (* [await fetch(...)] *)
| FireAndForget.     (* [fetch(...).catch(() => {})], not awaited *)

(** A run of [deleteQuote]: the requests in the order sent, and how the
    returned promise settles. *)
Record DeleteRun : Type := {
  sent : list (Request * Handling);
  settles : result unit
}.

(** [deleteQuote]; [soft] and [hard] are what the two requests come to. *)
Definition deleteQuote (quote : Quotation) (soft hard : FetchOutcome) : DeleteRun :=
  match await_fetch soft with
  | Returns _ =>
      (* the rejection of the second request is handled by its own
         [catch] and the promise is dropped *)
      {| sent := [(savePayload quote, Awaited); (deletePayload quote, FireAndForget)];
         settles := Returns tt |}
  | Throws _ =>
      {| sent := [(savePayload quote, Awaited); (deletePayload quote, Awaited)];
         settles := try_catch (let* _ := await_fetch hard in Returns tt)
                              (fun _ => Returns tt) |}
  end.

End Service.

(* ================================================================== *)
(** * The application component: tombstone ledger *)

Section Ledger.

Context {R : Runtime}.

Definition normalize_string (s : string) : string :=
  replace_ws_runs false (trim (toLowerCase s)).

Definition normalize (val : jsval) : string :=
  if is_nullish val then "" else normalize_string (js_String val).

(** The fingerprint of a (date, customer name, quote number) triple. *)
Definition fingerprint (date customerName quoteNumber : string) : string :=
  normalize (VStr (date ++ "_" ++ customerName ++ "_" ++ quoteNumber)).

Definition getQuoteFingerprint (q : Quotation) : string :=
  fingerprint (date q) (customerName q) (quoteNumber q).

(** ** [Set] *)

(** A [Set] as the list of its members in insertion order. *)
Definition JSSet : Type := list jsval.

Definition Set_has (s : JSSet) (v : jsval) : bool :=
  existsb (same_value_zero v) s.

Definition Set_add (s : JSSet) (v : jsval) : JSSet :=
  if Set_has s v then s else (s ++ [v])%list.

Fixpoint code_points (s : string) : list jsval :=
  match s with
  | EmptyString => []
  | String c s' => VStr (String c EmptyString) :: code_points s'
  end.

(** [new Set(v)]: the members of an iterable, nothing for [null]; a
    number, a boolean or an object is not iterable. *)
Definition new_Set (v : jsval) : result JSSet :=
  match v with
  | VUndefined | VNull => Returns []
  | VArr items => Returns (fold_left Set_add items [])
  | VStr s => Returns (fold_left Set_add (code_points s) [])
  | VBool _ | VNum _ | VObj _ => Throws TypeError
  end.

(** ** [localStorage] *)

(** What one key of [localStorage] holds, seen through [JSON.parse]:
    nothing (no item, or the empty string, which [|| '[]'] replaces), a
    text that is not JSON, or the JSON of a value.  Writing
    [JSON.stringify(v)] stores the JSON of [v]. *)
Inductive cell : Type :=
| Absent
| Unparsable
| Parsed (v : jsval).

Record LocalStorage : Type := {
  tyreQuotes : option (list Quotation);
  bl_ids : cell;
  bl_numbers : cell;
  bl_fingerprints : cell;
  blacklistedIds : cell               (* the legacy ledger *)
}.

(** [JSON.parse(localStorage.getItem(key) || '[]')] *)
Definition parse_item (c : cell) : result jsval :=
  match c with
  | Absent => Returns (VArr [])
  | Unparsable => Throws SyntaxError
  | Parsed v => Returns v
  end.

Record Blacklist : Type := {
  ids : JSSet;
  numbers : JSSet;
  fingerprints : JSSet
}.

Definition empty_blacklist : Blacklist :=
  {| ids := []; numbers := []; fingerprints := [] |}.

(** [legacyIds.forEach(id => ids.add(normalize(id)))] *)
Definition migrate_legacy (legacyIds : jsval) (ids : JSSet) : result JSSet :=
  match legacyIds with
  | VArr items =>
      Returns (fold_left (fun s id => Set_add s (VStr (normalize id))) items ids)
  | _ => Throws TypeError
  end.

Definition getLocallyBlacklistedItems (ls : LocalStorage) : Blacklist :=
  match
    (let* ids := (let* v := parse_item (bl_ids ls) in new_Set v) in
     let* numbers := (let* v := parse_item (bl_numbers ls) in new_Set v) in
     let* fingerprints := (let* v := parse_item (bl_fingerprints ls) in new_Set v) in
     let* legacyIds := parse_item (blacklistedIds ls) in
     let* ids := migrate_legacy legacyIds ids in
     Returns {| ids := ids; numbers := numbers; fingerprints := fingerprints |})
  with
  | Returns b => b
  | Throws _ => empty_blacklist
  end.

(** The filter of [fetchRemoteQuotes]. *)
Definition isValidQuote (bl : Blacklist) (q : Quotation) : bool :=
  if is_Deleted q then false
  else if Set_has (ids bl) (VStr (normalize (VStr (id q)))) then false
  else if Set_has (numbers bl) (VStr (normalize (VStr (quoteNumber q)))) then false
  else if Set_has (fingerprints bl) (VStr (getQuoteFingerprint q)) then false
  else true.

(** [Array.from(s).filter(i => i !== x)] for a string [x]. *)
Definition without_string (s : JSSet) (x : string) : list jsval :=
  filter (fun i => negb (strict_eq_string i x)) s.

End Ledger.

(* ================================================================== *)
(** * The application component: state and handlers *)

Section App.

Context {R : Runtime}.

Inductive View : Type := view_list | view_form.

(** The state of [App] that the handlers below read or write.
    [sheetsService] tells that a service instance exists, [pauseSync] is
    [pauseSyncRef.current], [errorMsg] holds the error whose message the
    banner shows.  A handler reads the state as it is when it runs, and an
    update of the state shows at once (React hands a handler the state of
    the last render and applies an update at the next one). *)
Record AppState : Type := {
  view : View;
  quotes : list Quotation;
  selectedQuote : option Quotation;
  sheetsService : bool;
  useGoogleSheets : bool;
  isSyncing : bool;
  lastSyncTime : option string;
  errorMsg : option JSError;
  pauseSync : bool;
  localStorage : LocalStorage
}.

(** What a handler does besides changing the state, in the order it does
    it. *)
Inductive Effect : Type :=
| PauseSync (b : bool)                        (* [pauseSyncRef.current = b] *)
| SetQuotes (qs : list Quotation)
| SetItem (key : string)                      (* [localStorage.setItem(key, ...)] *)
| CallFetchQuotes                             (* [service.fetchQuotes()] *)
| CallSaveQuote (q : Quotation)               (* [service.saveQuote(q)] *)
| CallDeleteQuote (q : Quotation)             (* [service.deleteQuote(q)] *)
| SetTimeout (ms : Z)
| Alert
| ConsoleLog.

(** Handlers are written in a state monad that also collects the
    effects. *)
Definition Handler (A : Type) : Type := AppState -> A * AppState * list Effect.

Definition ret {A : Type} (a : A) : Handler A := fun st => (a, st, []).

Definition hbind {A B : Type} (m : Handler A) (k : A -> Handler B) : Handler B :=
  fun st =>
    let '(a, st1, e1) := m st in
    let '(b, st2, e2) := k a st1 in
    (b, st2, (e1 ++ e2)%list).

Definition read {A : Type} (f : AppState -> A) : Handler A :=
  fun st => (f st, st, []).

Definition effect (f : AppState -> AppState) (e : list Effect) : Handler unit :=
  fun st => (tt, f st, e).

Definition state_after {A : Type} (m : Handler A) (st : AppState) : AppState :=
  snd (fst (m st)).

Definition effects_of {A : Type} (m : Handler A) (st : AppState) : list Effect :=
  snd (m st).

Definition when (b : bool) (m : Handler unit) : Handler unit :=
  if b then m else ret tt.

Notation "x <- m ;; k" := (hbind m (fun x => k))
  (at level 61, m at next level, right associativity).
Notation "m ;;; k" := (hbind m (fun _ => k))
  (at level 61, right associativity).

(** ** State setters *)

Definition with_view (v : View) (st : AppState) : AppState :=
  {| view := v; quotes := quotes st; selectedQuote := selectedQuote st;
     sheetsService := sheetsService st; useGoogleSheets := useGoogleSheets st;
     isSyncing := isSyncing st; lastSyncTime := lastSyncTime st;
     errorMsg := errorMsg st; pauseSync := pauseSync st;
     localStorage := localStorage st |}.

Definition with_quotes (qs : list Quotation) (st : AppState) : AppState :=
  {| view := view st; quotes := qs; selectedQuote := selectedQuote st;
     sheetsService := sheetsService st; useGoogleSheets := useGoogleSheets st;
     isSyncing := isSyncing st; lastSyncTime := lastSyncTime st;
     errorMsg := errorMsg st; pauseSync := pauseSync st;
     localStorage := localStorage st |}.

Definition with_selectedQuote (q : option Quotation) (st : AppState) : AppState :=
  {| view := view st; quotes := quotes st; selectedQuote := q;
     sheetsService := sheetsService st; useGoogleSheets := useGoogleSheets st;
     isSyncing := isSyncing st; lastSyncTime := lastSyncTime st;
     errorMsg := errorMsg st; pauseSync := pauseSync st;
     localStorage := localStorage st |}.

Definition with_isSyncing (b : bool) (st : AppState) : AppState :=
  {| view := view st; quotes := quotes st; selectedQuote := selectedQuote st;
     sheetsService := sheetsService st; useGoogleSheets := useGoogleSheets st;
     isSyncing := b; lastSyncTime := lastSyncTime st;
     errorMsg := errorMsg st; pauseSync := pauseSync st;
     localStorage := localStorage st |}.

Definition with_lastSyncTime (t : option string) (st : AppState) : AppState :=
  {| view := view st; quotes := quotes st; selectedQuote := selectedQuote st;
     sheetsService := sheetsService st; useGoogleSheets := useGoogleSheets st;
     isSyncing := isSyncing st; lastSyncTime := t;
     errorMsg := errorMsg st; pauseSync := pauseSync st;
     localStorage := localStorage st |}.

Definition with_errorMsg (e : option JSError) (st : AppState) : AppState :=
  {| view := view st; quotes := quotes st; selectedQuote := selectedQuote st;
     sheetsService := sheetsService st; useGoogleSheets := useGoogleSheets st;
     isSyncing := isSyncing st; lastSyncTime := lastSyncTime st;
     errorMsg := e; pauseSync := pauseSync st;
     localStorage := localStorage st |}.

Definition with_pauseSync (b : bool) (st : AppState) : AppState :=
  {| view := view st; quotes := quotes st; selectedQuote := selectedQuote st;
     sheetsService := sheetsService st; useGoogleSheets := useGoogleSheets st;
     isSyncing := isSyncing st; lastSyncTime := lastSyncTime st;
     errorMsg := errorMsg st; pauseSync := b;
     localStorage := localStorage st |}.

Definition with_localStorage (ls : LocalStorage) (st : AppState) : AppState :=
  {| view := view st; quotes := quotes st; selectedQuote := selectedQuote st;
     sheetsService := sheetsService st; useGoogleSheets := useGoogleSheets st;
     isSyncing := isSyncing st; lastSyncTime := lastSyncTime st;
     errorMsg := errorMsg st; pauseSync := pauseSync st;
     localStorage := ls |}.

Definition store_tyreQuotes (qs : list Quotation) (ls : LocalStorage) : LocalStorage :=
  {| tyreQuotes := Some qs; bl_ids := bl_ids ls; bl_numbers := bl_numbers ls;
     bl_fingerprints := bl_fingerprints ls; blacklistedIds := blacklistedIds ls |}.

Definition store_bl_ids (l : list jsval) (ls : LocalStorage) : LocalStorage :=
  {| tyreQuotes := tyreQuotes ls; bl_ids := Parsed (VArr l); bl_numbers := bl_numbers ls;
     bl_fingerprints := bl_fingerprints ls; blacklistedIds := blacklistedIds ls |}.

Definition store_bl_numbers (l : list jsval) (ls : LocalStorage) : LocalStorage :=
  {| tyreQuotes := tyreQuotes ls; bl_ids := bl_ids ls; bl_numbers := Parsed (VArr l);
     bl_fingerprints := bl_fingerprints ls; blacklistedIds := blacklistedIds ls |}.

Definition store_bl_fingerprints (l : list jsval) (ls : LocalStorage) : LocalStorage :=
  {| tyreQuotes := tyreQuotes ls; bl_ids := bl_ids ls; bl_numbers := bl_numbers ls;
     bl_fingerprints := Parsed (VArr l); blacklistedIds := blacklistedIds ls |}.

(** ** The primitive steps of the handlers *)

Definition setView (v : View) : Handler unit := effect (with_view v) [].
Definition setSelectedQuote (q : option Quotation) : Handler unit :=
  effect (with_selectedQuote q) [].
Definition setIsSyncing (b : bool) : Handler unit := effect (with_isSyncing b) [].
Definition setLastSyncTime (now : string) : Handler unit :=
  effect (with_lastSyncTime (Some now)) [].
Definition setErrorMsg (e : option JSError) : Handler unit := effect (with_errorMsg e) [].
Definition setQuotes (qs : list Quotation) : Handler unit :=
  effect (with_quotes qs) [SetQuotes qs].
Definition set_pauseSync (b : bool) : Handler unit :=
  effect (with_pauseSync b) [PauseSync b].
Definition setItem_tyreQuotes (qs : list Quotation) : Handler unit :=
  effect (fun st => with_localStorage (store_tyreQuotes qs (localStorage st)) st)
         [SetItem "tyreQuotes"].
Definition setItem_bl_ids (l : list jsval) : Handler unit :=
  effect (fun st => with_localStorage (store_bl_ids l (localStorage st)) st)
         [SetItem "bl_ids"].
Definition setItem_bl_numbers (l : list jsval) : Handler unit :=
  effect (fun st => with_localStorage (store_bl_numbers l (localStorage st)) st)
         [SetItem "bl_numbers"].
Definition setItem_bl_fingerprints (l : list jsval) : Handler unit :=
  effect (fun st => with_localStorage (store_bl_fingerprints l (localStorage st)) st)
         [SetItem "bl_fingerprints"].
Definition emit (e : Effect) : Handler unit := effect (fun st => st) [e].

(** ** [fetchRemoteQuotes]

    The function runs up to its [await], and goes on when the promise of
    [service.fetchQuotes()] settles; other handlers may run in between. *)

(** Up to the [await]: [true] when the request has been made. *)
Definition fetchRemoteQuotes_start (isBackground : bool) : Handler bool :=
  paused <- read pauseSync ;;
  if paused then ret false
  else
    when (negb isBackground) (setIsSyncing true) ;;;
    setErrorMsg None ;;;
    emit CallFetchQuotes ;;;
    ret true.

(** From the [await] on; [now] is the [new Date()] of the sync time. *)
Definition fetchRemoteQuotes_resume (isBackground : bool) (now : string)
    (fetched : result (list Quotation)) : Handler unit :=
  match fetched with
  | Returns cloudQuotes =>
      paused <- read pauseSync ;;
      if paused then emit ConsoleLog
      else
        bl <- read (fun st => getLocallyBlacklistedItems (localStorage st)) ;;
        let validQuotes := filter (isValidQuote bl) cloudQuotes in
        setQuotes validQuotes ;;;
        setItem_tyreQuotes validQuotes ;;;
        setLastSyncTime now
  | Throws err =>
      emit ConsoleLog ;;;
      when (negb isBackground) (setErrorMsg (Some err))
  end ;;;
  when (negb isBackground) (setIsSyncing false).

Definition loadFromLocalStorage : Handler unit :=
  saved <- read (fun st => tyreQuotes (localStorage st)) ;;
  match saved with
  | Some qs => setQuotes qs
  | None => ret tt
  end.

Definition handleRefresh (now : string) : Handler bool :=
  set_pauseSync false ;;;
  configured <- read (fun st => sheetsService st && useGoogleSheets st) ;;
  if configured then fetchRemoteQuotes_start false
  else loadFromLocalStorage ;;; setLastSyncTime now ;;; ret false.

(** The callback of the 30 s interval, which exists only with a service. *)
Definition backgroundSync : Handler bool :=
  installed <- read (fun st => useGoogleSheets st && sheetsService st) ;;
  if installed then
    idle <- read (fun st => negb (isSyncing st) && negb (pauseSync st)) ;;
    if idle then fetchRemoteQuotes_start true else ret false
  else ret false.

(** ** [handleSaveQuote] *)

Fixpoint replace_by_id (quote : Quotation) (qs : list Quotation)
  : option (list Quotation) :=
  match qs with
  | [] => None
  | q :: rest =>
      if String.eqb (id q) (id quote) then Some (quote :: rest)
      else match replace_by_id quote rest with
           | Some rest' => Some (q :: rest')
           | None => None
           end
  end.

(** Up to [await sheetsService.saveQuote(quote)]: [true] when the request
    has been made. *)
Definition handleSaveQuote_start (quote : Quotation) : Handler bool :=
  qs <- read quotes ;;
  let updatedQuotes := match replace_by_id quote qs with
                       | Some qs' => qs'
                       | None => (qs ++ [quote])%list
                       end in
  setQuotes updatedQuotes ;;;
  setView view_list ;;;
  setSelectedQuote None ;;;
  bl <- read (fun st => getLocallyBlacklistedItems (localStorage st)) ;;
  let qId := normalize (VStr (id quote)) in
  let qNum := normalize (VStr (quoteNumber quote)) in
  let qPrint := getQuoteFingerprint quote in
  when (Set_has (ids bl) (VStr qId) || Set_has (numbers bl) (VStr qNum)
        || Set_has (fingerprints bl) (VStr qPrint))
    (setItem_bl_ids (without_string (ids bl) qId) ;;;
     setItem_bl_numbers (without_string (numbers bl) qNum) ;;;
     setItem_bl_fingerprints (without_string (fingerprints bl) qPrint)) ;;;
  setItem_tyreQuotes updatedQuotes ;;;
  configured <- read (fun st => sheetsService st && useGoogleSheets st) ;;
  if configured then
    setIsSyncing true ;;;
    set_pauseSync true ;;;
    emit (CallSaveQuote quote) ;;;
    ret true
  else ret false.

(** When the promise of [saveQuote] settles. *)
Definition handleSaveQuote_resume (saved : result unit) : Handler unit :=
  match saved with
  | Returns _ => emit (SetTimeout 2000)
  | Throws _ => emit Alert ;;; set_pauseSync false
  end ;;;
  setIsSyncing false.

(** The callback of that 2 s timer. *)
Definition handleSaveQuote_timer : Handler bool :=
  set_pauseSync false ;;;
  fetchRemoteQuotes_start true.

(** ** [handleDeleteQuote] *)

Definition id_is (i : string) (q : Quotation) : bool := String.eqb (id q) i.

Definition handleDeleteQuote (i : string) : Handler unit :=
  qs <- read quotes ;;
  match find (id_is i) qs with
  | None => setQuotes (filter (fun q => negb (id_is i q)) qs)
  | Some quoteToDelete =>
      set_pauseSync true ;;;
      bl <- read (fun st => getLocallyBlacklistedItems (localStorage st)) ;;
      let ids1 := if is_empty (id quoteToDelete) then ids bl
                  else Set_add (ids bl) (VStr (normalize (VStr (id quoteToDelete)))) in
      let numbers1 := if is_empty (quoteNumber quoteToDelete) then numbers bl
                      else Set_add (numbers bl)
                             (VStr (normalize (VStr (quoteNumber quoteToDelete)))) in
      let fingerprints1 := Set_add (fingerprints bl)
                             (VStr (getQuoteFingerprint quoteToDelete)) in
      setItem_bl_ids ids1 ;;;
      setItem_bl_numbers numbers1 ;;;
      setItem_bl_fingerprints fingerprints1 ;;;
      let updatedQuotes := filter (fun q => negb (id_is i q)) qs in
      setQuotes updatedQuotes ;;;
      setItem_tyreQuotes updatedQuotes ;;;
      selected <- read selectedQuote ;;
      when (match selected with
            | Some q => id_is i q
            | None => false
            end)
        (setSelectedQuote None ;;; setView view_list) ;;;
      configured <- read (fun st => sheetsService st && useGoogleSheets st) ;;
      if configured then emit (CallDeleteQuote quoteToDelete)
      else set_pauseSync false
  end.

(** When the promise of [deleteQuote] settles: a line on the console
    either way, then the 8 s timer. *)
Definition handleDeleteQuote_settled (settled : result unit) : Handler unit :=
  emit ConsoleLog ;;;
  emit (SetTimeout 8000).

(** The callback of that timer. *)
Definition handleDeleteQuote_timer : Handler unit :=
  set_pauseSync false.

End App.

(* ================================================================== *)
(** * SavedQuotesList.tsx: the totals of [QuoteCard] *)

Section Card.

Context {R : Runtime}.






End Card.

(* ================================================================== *)
(** * A run time to evaluate the model with *)

Module Example.

(** Numbers that are integers, and [NaN]. *)
Inductive int_or_nan : Type :=
| Int (z : Z)
| NaN.

Definition lift2 (f : Z -> Z -> Z) (a b : int_or_nan) : int_or_nan :=
  match a, b with
  | Int x, Int y => Int (f x y)
  | _, _ => NaN
  end.

Definition decimal (z : Z) : string := NilZero.string_of_int (Z.to_int z).

(** [Number(s)] for the text of an integer; the empty text reads as 0. *)
Definition of_decimal (s : string) : int_or_nan :=
  if is_empty (trim s) then Int 0
  else match NilZero.int_of_string (trim s) with
       | Some d => Int (Z.of_int d)
       | None => NaN
       end.

(** Of [JSON.parse], its value on the texts the examples below use; every
    other text the examples use is not JSON. *)
Definition parse (text : string) : option (value int_or_nan) :=
  if String.eqb text "[]" then Some (VArr [])
  else if String.eqb text "{}" then Some (VObj [])
  else if String.eqb text "null" then Some VNull
  else None.

Definition runtime : Runtime := {|
  number := int_or_nan;
  num_of_Z := Int;
  num_nan := NaN;
  num_truthy := fun n => match n with Int z => negb (z =? 0)%Z | NaN => false end;
  num_same := fun a b => match a, b with
                         | Int x, Int y => (x =? y)%Z
                         | NaN, NaN => true
                         | _, _ => false
                         end;
  num_to_string := fun n => match n with Int z => decimal z | NaN => "NaN" end;
  string_to_number := of_decimal;
  num_add := lift2 Z.add;
  num_sub := lift2 Z.sub;
  num_mul := lift2 Z.mul;
  Math_round := fun n => n;
  JSON_parse := parse
|}.

#[local] Existing Instance runtime.

(** A draft quotation with no line items. *)
Definition draft (id date customerName quoteNumber : string)
  : @Quotation runtime :=
  {| id := id; quoteNumber := quoteNumber; date := date;
     customerName := customerName;
     customerPhone := VStr ""; customerEmail := VStr "";
     customerAddress := VStr ""; vehicleMake := VStr "";
     vehicleModel := VStr ""; vehicleNo := VStr "";
     lineItems := VArr []; discount := Int 0; taxRate := Int 18;
     notes := VStr ""; status := VStr "Draft"; isOptionQuote := Some false |}.

Definition ravi : @Quotation runtime := draft "q-7" "2024-01-05" "Ravi" "Q-1".
Definition ravi_retyped : @Quotation runtime := draft "q-8" "2024-01-05" "ravi" "q-1".

(** Two readings of the clock, a day apart. *)
Definition jan5 : string := "2024-01-05T10:00:00.000Z".
Definition jan6 : string := "2024-01-06T10:00:00.000Z".

(** A row of the sheet with neither identifier nor date. *)
Definition undated : @jsval runtime :=
  VObj [("customerName", VStr "Ravi"); ("quoteNumber", VStr "Q-1")].




Definition response (text : string) : Response :=
  {| resp_ok := true; resp_status := 200; resp_text := text |}.

Definition storage (legacy : @cell runtime) : @LocalStorage runtime :=
  {| tyreQuotes := None; bl_ids := Absent; bl_numbers := Absent;
     bl_fingerprints := Absent; blacklistedIds := legacy |}.

(** The application at rest, with a service, showing [qs]. *)
Definition showing (qs : list (@Quotation runtime)) (ls : @LocalStorage runtime)
  : @AppState runtime :=
  {| view := view_list; quotes := qs; selectedQuote := None;
     sheetsService := true; useGoogleSheets := true;
     isSyncing := false; lastSyncTime := None; errorMsg := None;
     pauseSync := false; localStorage := ls |}.

End Example.

(* ================================================================== *)
(** * Definitions used to state the properties *)

Definition underscore_free (s : string) : Prop := includes_char "_" s = false.

(** The number a text of base-36 digits stands for, after the digits read
    so far have given [acc]. *)
Definition digit36_value (c : ascii) : Z :=
  let n := Z.of_N (charCode c) in
  if (n <? 58)%Z then (n - 48)%Z else (n - 87)%Z.

Fixpoint read36 (s : string) (acc : Z) : Z :=
  match s with
  | EmptyString => acc
  | String c s' => read36 s' (acc * 36 + digit36_value c)
  end.

Fixpoint all_white_space (s : string) : bool :=
  match s with
  | EmptyString => true
  | String c s' => is_white_space c && all_white_space s'
  end.

Section Statements.

Context {R : Runtime}.


(** A response text that gives no value with properties to read: it is
    not JSON, or it is the JSON of [null]. *)
Definition unreadable (text : string) : bool :=
  match JSON_parse text with
  | Some v => is_nullish v
  | None => true
  end.

(** The legacy ledger holds an entry that normalises to [x]. *)
Definition legacy_mentions (ls : LocalStorage) (x : string) : Prop :=
  exists items item,
    blacklistedIds ls = Parsed (VArr items) /\ In item items /\ normalize item = x.

(** A record is tombstoned when one of its three keys is in its set. *)
Definition tombstoned (bl : Blacklist) (q : Quotation) : bool :=
  Set_has (ids bl) (VStr (normalize (VStr (id q))))
  || Set_has (numbers bl) (VStr (normalize (VStr (quoteNumber q))))
  || Set_has (fingerprints bl) (VStr (getQuoteFingerprint q)).

(** What can happen to the list between a delete and the end of its
    pause: the interval fires, or a fetch that was under way settles. *)
Inductive SyncEvent : Type :=
| IntervalFires
| FetchSettles (isBackground : bool) (now : string)
               (fetched : result (list Quotation)).

Definition sync_step (st : AppState) (ev : SyncEvent) : AppState :=
  match ev with
  | IntervalFires => state_after backgroundSync st
  | FetchSettles isBackground now fetched =>
      state_after (fetchRemoteQuotes_resume isBackground now fetched) st
  end.

Definition sync_run (evs : list SyncEvent) (st : AppState) : AppState :=
  fold_left sync_step evs st.

(** The three effects of [handleDeleteQuote] that write the ledger. *)
Definition ledger_writes : list Effect :=
  [SetItem "bl_ids"; SetItem "bl_numbers"; SetItem "bl_fingerprints"].

End Statements.

(* ================================================================== *)
(** * SavedQuotesList.tsx: the search and the delete button *)

(** [s.startsWith(sub)] *)
Fixpoint startsWith (sub s : string) : bool :=
  match sub, s with
  | EmptyString, _ => true
  | String _ _, EmptyString => false
  | String c sub', String d s' => Ascii.eqb c d && startsWith sub' s'
  end.

(** [s.includes(sub)] *)
Fixpoint includes (s sub : string) : bool :=
  startsWith sub s
  || match s with
     | EmptyString => false
     | String _ s' => includes s' sub
     end.

Section SavedQuotes.

Context {R : Runtime}.

(** The test of [filteredQuotes] on one quotation. *)
Definition matchesSearch (searchTerm searchDate : string) (quote : Quotation) : bool :=
  let nameMatch := includes (toLowerCase (customerName quote)) (toLowerCase searchTerm) in
  let dateMatch := if is_empty searchDate then true
                   else String.eqb (date quote) searchDate in
  nameMatch && dateMatch.

(** [filteredQuotes], from [sortedQuotes]: the order of [sortedQuotes] comes
    from the dates as [Date] reads them and is taken as given. *)
Definition filteredQuotes (searchTerm searchDate : string)
    (sortedQuotes : list Quotation) : list Quotation :=
  filter (matchesSearch searchTerm searchDate) sortedQuotes.

(** What [SavedQuotesList] shows below its title. *)
Inductive ListView : Type :=
| NoQuotationsFound                       (* with the button "Create New Quote" *)
| Cards (shown : list Quotation)
| NoMatch.                                (* "No quotations match your search" *)

Definition SavedQuotesList (quotes sortedQuotes : list Quotation)
    (searchTerm searchDate : string) : ListView :=
  if (List.length quotes =? 0)%nat then NoQuotationsFound
  else
    let shown := filteredQuotes searchTerm searchDate sortedQuotes in
    if (0 <? List.length shown)%nat then Cards shown else NoMatch.

End SavedQuotes.

(** ** The delete button of [QuoteCard] *)

(** The two pieces of state of a card. *)
Record CardState : Type := {
  card_isDeleted : bool;        (* [isDeleted] *)
  card_deleteStep : Z           (* [deleteStep]: 0 idle, 1 confirming *)
}.

Definition card_mounted : CardState :=
  {| card_isDeleted := false; card_deleteStep := 0 |}.

(** [handleDeleteClick]: the state after the click, and whether [onDelete]
    has been scheduled. *)
Definition handleDeleteClick (c : CardState) : CardState * bool :=
  if (card_deleteStep c =? 0)%Z
  then ({| card_isDeleted := card_isDeleted c; card_deleteStep := 1 |}, false)
  else if (card_deleteStep c =? 1)%Z
  then ({| card_isDeleted := true; card_deleteStep := card_deleteStep c |}, true)
  else (c, false).

(** The 3 s timer of the effect, which is pending only in step 1. *)
Definition confirmTimeout (c : CardState) : CardState :=
  if (card_deleteStep c =? 1)%Z
  then {| card_isDeleted := card_isDeleted c; card_deleteStep := 0 |}
  else c.

Inductive CardEvent : Type :=
| ClickDelete
| TimerFires.

(** A card marked deleted renders nothing, so it has no button to click. *)
Definition card_step (c : CardState) (ev : CardEvent) : CardState * bool :=
  match ev with
  | ClickDelete => if card_isDeleted c then (c, false) else handleDeleteClick c
  | TimerFires => (confirmTimeout c, false)
  end.

(** The number of times [onDelete] is scheduled along a run of events. *)
Fixpoint onDelete_calls (evs : list CardEvent) (c : CardState) : nat :=
  match evs with
  | [] => 0
  | ev :: rest =>
      let '(c', called) := card_step c ev in
      ((if called then 1 else 0) + onDelete_calls rest c')%nat
  end.

(** The run starts with a click. *)
Definition starts_with_click (evs : list CardEvent) : bool :=
  match evs with
  | ClickDelete :: _ => true
  | _ => false
  end.

(** Two clicks in a row, with no timer in between. *)
Fixpoint double_click (evs : list CardEvent) : bool :=
  match evs with
  | ClickDelete :: ((ClickDelete :: _) as rest) => true
  | _ :: rest => double_click rest
  | [] => false
  end.

(* ================================================================== *)
(** * The application component: the other handlers and its events *)

Section AppEvents.

Context {R : Runtime}.

Notation "m ;;; k" := (hbind m (fun _ => k))
  (at level 61, right associativity).
Notation "x <- m ;; k" := (hbind m (fun x => k))
  (at level 61, m at next level, right associativity).

Definition handleCreateNew : Handler unit :=
  setSelectedQuote None ;;; setView view_form.

Definition handleEditQuote (i : string) : Handler unit :=
  qs <- read quotes ;;
  match find (id_is i) qs with
  | Some quoteToEdit => setSelectedQuote (Some quoteToEdit) ;;; setView view_form
  | None => ret tt
  end.

Definition handleViewList : Handler unit :=
  setSelectedQuote None ;;; setView view_list.

(** The [onCancel] of the form: [() => setView('list')]. *)
Definition onCancel : Handler unit := setView view_list.

(** Everything that makes a handler of the component run. *)
Inductive AppEvent : Type :=
| UserDeletes (i : string)
| DeleteSettles (settled : result unit)
| DeleteTimerFires
| UserSaves (quote : Quotation)
| SaveSettles (saved : result unit)
| SaveTimerFires
| UserRefreshes (now : string)
| IntervalTicks
| FetchReturns (isBackground : bool) (now : string)
               (fetched : result (list Quotation))
| UserEdits (i : string)
| UserCreatesNew
| UserViewsList
| UserCancelsForm.

Definition app_step (st : AppState) (ev : AppEvent) : AppState :=
  match ev with
  | UserDeletes i => state_after (handleDeleteQuote i) st
  | DeleteSettles settled => state_after (handleDeleteQuote_settled settled) st
  | DeleteTimerFires => state_after handleDeleteQuote_timer st
  | UserSaves quote => state_after (handleSaveQuote_start quote) st
  | SaveSettles saved => state_after (handleSaveQuote_resume saved) st
  | SaveTimerFires => state_after handleSaveQuote_timer st
  | UserRefreshes now => state_after (handleRefresh now) st
  | IntervalTicks => state_after backgroundSync st
  | FetchReturns isBackground now fetched =>
      state_after (fetchRemoteQuotes_resume isBackground now fetched) st
  | UserEdits i => state_after (handleEditQuote i) st
  | UserCreatesNew => state_after handleCreateNew st
  | UserViewsList => state_after handleViewList st
  | UserCancelsForm => state_after onCancel st
  end.

Definition app_run (evs : list AppEvent) (st : AppState) : AppState :=
  fold_left app_step evs st.

(** The cached list is the list on the screen. *)
Definition cache_in_step (st : AppState) : Prop :=
  tyreQuotes (localStorage st) = Some (quotes st).

(** No two quotations of the list have the same identifier. *)
Definition distinct_ids (qs : list Quotation) : Prop := NoDup (map id qs).

(** A fetch that returns brings quotations of distinct identifiers. *)
Definition fetch_is_distinct (ev : AppEvent) : Prop :=
  match ev with
  | FetchReturns _ _ (Returns cloudQuotes) => distinct_ids cloudQuotes
  | _ => True
  end.

(** A ledger key whose content [new Set] cannot take. *)
Definition not_iterable (c : cell) : Prop :=
  c = Unparsable
  \/ (exists b, c = Parsed (VBool b))
  \/ (exists n, c = Parsed (VNum n))
  \/ (exists fields, c = Parsed (VObj fields)).

(** A legacy ledger that is not the JSON of an array. *)
Definition not_an_array (c : cell) : Prop :=
  c = Unparsable \/ exists v, c = Parsed v /\ isArray v = false.


End AppEvents.

(** The hash of [generateStableId] without the wrap to 32 bits: the code
    units as the digits of a number in base 31. *)
Fixpoint poly31 (str : string) (acc : Z) : Z :=
  match str with
  | EmptyString => acc
  | String c str' => poly31 str' (31 * acc + Z.of_N (charCode c))
  end.

(** ** More data for the examples *)

Module Sample.

Definition asha : @Quotation Example.runtime :=
  Example.draft "q-3" "2024-02-10" "Asha Verma" "Q-3".

(** A row of the sheet with an identifier and an ISO time for its date. *)
Definition dated : @jsval Example.runtime :=
  VObj [("id", VStr " q-5 "); ("customerName", VStr "Ravi");
        ("date", VStr "2023-10-25T07:00:00Z")].

(** A ledger whose legacy key is not JSON. *)
Definition corrupted : @LocalStorage Example.runtime :=
  {| tyreQuotes := None; bl_ids := Parsed (VArr [VStr "q-7"]);
     bl_numbers := Absent; bl_fingerprints := Absent;
     blacklistedIds := Unparsable |}.


End Sample.

(* ================================================================== *)
(** * Facts on strings *)

Ltac each_ascii c := destruct c as [[] [] [] [] [] [] [] []]; reflexivity.

Lemma white_space_toLowerCase_char (c : ascii) :
  is_white_space (toLowerCase_char c) = is_white_space c.
Proof. each_ascii c. Qed.

Lemma toLowerCase_char_idem (c : ascii) :
  toLowerCase_char (toLowerCase_char c) = toLowerCase_char c.
Proof. each_ascii c. Qed.

Lemma underscore_toLowerCase_char (c : ascii) :
  Ascii.eqb (toLowerCase_char c) "_" = Ascii.eqb c "_".
Proof. each_ascii c. Qed.

Lemma white_space_not_underscore (c : ascii) :
  is_white_space c = true -> Ascii.eqb c "_" = false.
Proof. destruct c as [[] [] [] [] [] [] [] []]; vm_compute; congruence. Qed.

Lemma toLowerCase_app (a b : string) :
  toLowerCase (a ++ b) = toLowerCase a ++ toLowerCase b.
Proof. induction a as [|c a IH]; simpl; [reflexivity | now rewrite IH]. Qed.

Lemma toLowerCase_idem (s : string) : toLowerCase (toLowerCase s) = toLowerCase s.
Proof.
  induction s as [|c s IH]; simpl; [reflexivity|].
  now rewrite toLowerCase_char_idem, IH.
Qed.

Lemma is_empty_toLowerCase (s : string) : is_empty (toLowerCase s) = is_empty s.
Proof. destruct s; reflexivity. Qed.

Lemma trimStart_toLowerCase (s : string) :
  trimStart (toLowerCase s) = toLowerCase (trimStart s).
Proof.
  induction s as [|c s IH]; simpl; [reflexivity|].
  rewrite white_space_toLowerCase_char.
  destruct (is_white_space c); [exact IH | reflexivity].
Qed.

Lemma trimEnd_toLowerCase (s : string) :
  trimEnd (toLowerCase s) = toLowerCase (trimEnd s).
Proof.
  induction s as [|c s IH]; simpl; [reflexivity|].
  rewrite white_space_toLowerCase_char, IH, is_empty_toLowerCase.
  destruct (is_white_space c && is_empty (trimEnd s)); reflexivity.
Qed.

Lemma replace_ws_runs_toLowerCase (b : bool) (s : string) :
  replace_ws_runs b (toLowerCase s) = toLowerCase (replace_ws_runs b s).
Proof.
  revert b; induction s as [|c s IH]; intros b; simpl; [reflexivity|].
  rewrite white_space_toLowerCase_char.
  destruct (is_white_space c); [destruct b|]; simpl; now rewrite IH.
Qed.

(** ** Trimming *)

Lemma is_empty_trimEnd (s : string) : is_empty (trimEnd s) = all_white_space s.
Proof.
  induction s as [|c s IH]; simpl; [reflexivity|].
  rewrite IH. destruct (is_white_space c), (all_white_space s); reflexivity.
Qed.

Lemma trimStart_all_white_space (s : string) :
  all_white_space s = true -> trimStart s = EmptyString.
Proof.
  induction s as [|c s IH]; simpl; [reflexivity|].
  destruct (is_white_space c); simpl; [exact IH | discriminate].
Qed.

Lemma trimEnd_cons (c : ascii) (s : string) :
  trimEnd (String c s) =
  if is_white_space c && all_white_space s then EmptyString
  else String c (trimEnd s).
Proof. simpl. now rewrite is_empty_trimEnd. Qed.

Lemma all_white_space_trimEnd (s : string) :
  all_white_space (trimEnd s) = all_white_space s.
Proof.
  induction s as [|c s IH]; [reflexivity|].
  rewrite trimEnd_cons. simpl.
  destruct (is_white_space c) eqn:Hc; simpl.
  - destruct (all_white_space s) eqn:Hs; simpl; [reflexivity|].
    now rewrite Hc, IH.
  - now rewrite Hc.
Qed.

Lemma trimEnd_idem (s : string) : trimEnd (trimEnd s) = trimEnd s.
Proof.
  induction s as [|c s IH]; [reflexivity|].
  rewrite trimEnd_cons.
  destruct (is_white_space c && all_white_space s) eqn:H; [reflexivity|].
  rewrite trimEnd_cons, all_white_space_trimEnd, H, IH. reflexivity.
Qed.

Lemma trimStart_idem (s : string) : trimStart (trimStart s) = trimStart s.
Proof.
  induction s as [|c s IH]; simpl; [reflexivity|].
  destruct (is_white_space c) eqn:Hc; [exact IH|].
  simpl. now rewrite Hc.
Qed.

Lemma trimStart_trimEnd (s : string) : trimStart (trimEnd s) = trimEnd (trimStart s).
Proof.
  induction s as [|c s IH]; [reflexivity|].
  rewrite trimEnd_cons.
  cbn [trimStart].
  destruct (is_white_space c) eqn:Hc; cbn [andb].
  - destruct (all_white_space s) eqn:Hs.
    + rewrite (trimStart_all_white_space s Hs). reflexivity.
    + cbn [trimStart]. rewrite Hc. exact IH.
  - cbn [trimStart]. rewrite Hc. rewrite trimEnd_cons, Hc. reflexivity.
Qed.

Lemma trim_idem (s : string) : trim (trim s) = trim s.
Proof.
  unfold trim.
  rewrite trimStart_trimEnd, trimStart_idem, trimEnd_idem. reflexivity.
Qed.

(** ** Runs of white space *)

Lemma replace_ws_runs_idem (s : string) (b1 b2 : bool) :
  (b1 = true -> b2 = true) ->
  replace_ws_runs b1 (replace_ws_runs b2 s) = replace_ws_runs b2 s.
Proof.
  revert b1 b2; induction s as [|c s IH]; intros b1 b2 Hb; [reflexivity|].
  cbn [replace_ws_runs].
  destruct (is_white_space c) eqn:Hc.
  - destruct b2.
    + apply IH; auto.
    + destruct b1; [discriminate (Hb eq_refl)|].
      cbn [replace_ws_runs].
      replace (is_white_space " ") with true by reflexivity.
      f_equal. apply IH; auto.
  - cbn [replace_ws_runs]. rewrite Hc. f_equal. apply IH; auto.
Qed.

Lemma trimStart_replace_ws_runs (b : bool) (s : string) :
  trimStart (replace_ws_runs b s) = replace_ws_runs false (trimStart s).
Proof.
  revert b; induction s as [|c s IH]; intros b; [reflexivity|].
  cbn [replace_ws_runs trimStart].
  destruct (is_white_space c) eqn:Hc.
  - destruct b; [apply IH|].
    cbn [trimStart]. replace (is_white_space " ") with true by reflexivity.
    apply IH.
  - cbn [trimStart replace_ws_runs]. rewrite Hc. reflexivity.
Qed.

Lemma replace_ws_runs_all_white_space (s : string) :
  all_white_space s = true -> replace_ws_runs true s = EmptyString.
Proof.
  induction s as [|c s IH]; [reflexivity|].
  cbn [all_white_space replace_ws_runs].
  destruct (is_white_space c); [exact IH | discriminate].
Qed.

Lemma all_white_space_replace_ws_runs (b : bool) (s : string) :
  all_white_space (replace_ws_runs b s) = all_white_space s.
Proof.
  revert b; induction s as [|c s IH]; intros b; [reflexivity|].
  cbn [all_white_space replace_ws_runs].
  destruct (is_white_space c) eqn:Hc.
  - destruct b; [apply IH|].
    cbn [all_white_space]. replace (is_white_space " ") with true by reflexivity.
    apply IH.
  - cbn [all_white_space]. rewrite Hc. reflexivity.
Qed.

Lemma trimEnd_replace_ws_runs (b : bool) (s : string) :
  trimEnd (replace_ws_runs b s) = replace_ws_runs b (trimEnd s).
Proof.
  revert b; induction s as [|c s IH]; intros b; [reflexivity|].
  rewrite trimEnd_cons. cbn [replace_ws_runs].
  destruct (is_white_space c) eqn:Hc; cbn [andb].
  - destruct (all_white_space s) eqn:Hs.
    + rewrite (replace_ws_runs_all_white_space s Hs). destruct b; reflexivity.
    + cbn [replace_ws_runs]. rewrite Hc.
      destruct b; [apply IH|].
      rewrite trimEnd_cons, all_white_space_replace_ws_runs, Hs, andb_false_r.
      now rewrite IH.
  - cbn [replace_ws_runs]. rewrite Hc, trimEnd_cons, Hc. cbn [andb].
    now rewrite IH.
Qed.

(** ** Splitting at a code unit that is not white space *)

Lemma is_empty_app_cons (a : string) (u : ascii) (r : string) :
  is_empty (a ++ String u r) = false.
Proof. destruct a; reflexivity. Qed.

Lemma trimStart_app_cons (a : string) (u : ascii) (r : string) :
  is_white_space u = false ->
  trimStart (a ++ String u r) = trimStart a ++ String u r.
Proof.
  intros Hu; induction a as [|c a IH]; cbn [append trimStart].
  - now rewrite Hu.
  - destruct (is_white_space c); [exact IH | reflexivity].
Qed.

Lemma trimEnd_app_cons (a : string) (u : ascii) (r : string) :
  is_white_space u = false ->
  trimEnd (a ++ String u r) = a ++ String u (trimEnd r).
Proof.
  intros Hu; induction a as [|c a IH]; cbn [append trimEnd].
  - now rewrite Hu.
  - rewrite IH, is_empty_app_cons, andb_false_r. reflexivity.
Qed.

Lemma replace_ws_runs_app_cons (b : bool) (a : string) (u : ascii) (r : string) :
  is_white_space u = false ->
  replace_ws_runs b (a ++ String u r) =
  replace_ws_runs b a ++ String u (replace_ws_runs false r).
Proof.
  intros Hu; revert b; induction a as [|c a IH]; intros b; cbn [append replace_ws_runs].
  - now rewrite Hu.
  - destruct (is_white_space c); [destruct b|]; cbn [append]; now rewrite IH.
Qed.

(** ** Underscores *)

Lemma underscore_free_toLowerCase (s : string) :
  underscore_free s -> underscore_free (toLowerCase s).
Proof.
  unfold underscore_free; induction s as [|c s IH]; cbn [includes_char toLowerCase];
    [reflexivity|].
  rewrite underscore_toLowerCase_char. intros H.
  apply orb_false_iff in H as [-> H]. now rewrite (IH H).
Qed.

Lemma underscore_free_trimStart (s : string) :
  underscore_free s -> underscore_free (trimStart s).
Proof.
  unfold underscore_free; induction s as [|c s IH]; cbn [includes_char trimStart];
    [reflexivity|].
  intros H. destruct (is_white_space c); [|exact H].
  apply orb_false_iff in H as [_ H]. exact (IH H).
Qed.

Lemma underscore_free_replace_ws_runs (b : bool) (s : string) :
  underscore_free s -> underscore_free (replace_ws_runs b s).
Proof.
  unfold underscore_free; revert b; induction s as [|c s IH]; intros b;
    cbn [includes_char replace_ws_runs]; [reflexivity|].
  intros H. apply orb_false_iff in H as [Hc H].
  destruct (is_white_space c); [destruct b|]; cbn [includes_char].
  - now apply IH.
  - replace (Ascii.eqb " " "_") with false by reflexivity. now apply IH.
  - rewrite Hc. now apply IH.
Qed.

Lemma split_at_underscore (a a' r r' : string) :
  underscore_free a -> underscore_free a' ->
  a ++ String "_" r = a' ++ String "_" r' -> a = a' /\ r = r'.
Proof.
  unfold underscore_free; revert a'; induction a as [|c a IH]; intros [|c' a'];
    cbn [append includes_char]; intros Ha Ha' E.
  - injection E as ->. split; reflexivity.
  - injection E as <- _. discriminate Ha'.
  - injection E as -> _. discriminate Ha.
  - injection E as -> E.
    apply orb_false_iff in Ha as [_ Ha]. apply orb_false_iff in Ha' as [_ Ha'].
    destruct (IH a' Ha Ha' E) as [-> ->]. split; reflexivity.
Qed.

(** ** [normalize] *)

Lemma toLowerCase_trim (s : string) : toLowerCase (trim s) = trim (toLowerCase s).
Proof. unfold trim. now rewrite trimStart_toLowerCase, trimEnd_toLowerCase. Qed.

Lemma trim_replace_ws_runs (s : string) :
  trim (replace_ws_runs false s) = replace_ws_runs false (trim s).
Proof.
  unfold trim. now rewrite trimStart_replace_ws_runs, trimEnd_replace_ws_runs.
Qed.

Lemma normalize_string_idem (s : string) :
  normalize_string (normalize_string s) = normalize_string s.
Proof.
  unfold normalize_string.
  rewrite <- replace_ws_runs_toLowerCase, toLowerCase_trim, toLowerCase_idem.
  rewrite trim_replace_ws_runs, trim_idem.
  apply replace_ws_runs_idem; auto.
Qed.

(** A fingerprint is made of three pieces around its two underscores. *)
Lemma fingerprint_pieces {R : Runtime} (d c n : string) :
  fingerprint d c n =
  replace_ws_runs false (trimStart (toLowerCase d)) ++ "_" ++
  replace_ws_runs false (toLowerCase c) ++ "_" ++
  replace_ws_runs false (trimEnd (toLowerCase n)).
Proof.
  unfold fingerprint, normalize; cbn [is_nullish js_String].
  unfold normalize_string, trim.
  rewrite !toLowerCase_app. cbn [toLowerCase append].
  replace (toLowerCase_char "_") with "_"%char by reflexivity.
  rewrite trimStart_app_cons by reflexivity.
  rewrite trimEnd_app_cons by reflexivity.
  rewrite trimEnd_app_cons by reflexivity.
  rewrite replace_ws_runs_app_cons by reflexivity.
  rewrite replace_ws_runs_app_cons by reflexivity.
  reflexivity.
Qed.

Lemma normalize_string_from_start (s : string) :
  normalize_string s = trimEnd (replace_ws_runs false (trimStart (toLowerCase s))).
Proof. unfold normalize_string, trim. now rewrite trimEnd_replace_ws_runs. Qed.

Lemma normalize_string_from_middle (s : string) :
  normalize_string s = trim (replace_ws_runs false (toLowerCase s)).
Proof. unfold normalize_string. now rewrite trim_replace_ws_runs. Qed.

Lemma normalize_string_from_end (s : string) :
  normalize_string s = trimStart (replace_ws_runs false (trimEnd (toLowerCase s))).
Proof.
  unfold normalize_string, trim.
  now rewrite trimStart_replace_ws_runs, trimStart_trimEnd.
Qed.

Lemma fingerprint_determines_normalized {R : Runtime} (d c n d' c' n' : string) :
  underscore_free d -> underscore_free c ->
  underscore_free d' -> underscore_free c' ->
  fingerprint d c n = fingerprint d' c' n' ->
  normalize_string d = normalize_string d' /\
  normalize_string c = normalize_string c' /\
  normalize_string n = normalize_string n'.
Proof.
  intros Hd Hc Hd' Hc' E.
  rewrite !fingerprint_pieces in E. cbn [append] in E.
  apply split_at_underscore in E as [Ed E];
    try (apply underscore_free_replace_ws_runs, underscore_free_trimStart,
           underscore_free_toLowerCase; assumption).
  apply split_at_underscore in E as [Ec En];
    try (apply underscore_free_replace_ws_runs, underscore_free_toLowerCase;
         assumption).
  rewrite (normalize_string_from_start d), (normalize_string_from_start d'), Ed.
  rewrite (normalize_string_from_middle c), (normalize_string_from_middle c'), Ec.
  rewrite (normalize_string_from_end n), (normalize_string_from_end n'), En.
  repeat split.
Qed.

(* ================================================================== *)
(** * Normalisation and fingerprints *)

(** C8, the claim as stated fails: two quotations whose (date, customer
    name, quote number) triples differ, in the case of their letters only,
    have the same fingerprint. *)
Lemma fingerprint_collision :
  (date Example.ravi, customerName Example.ravi, quoteNumber Example.ravi)
  <> (date Example.ravi_retyped, customerName Example.ravi_retyped,
      quoteNumber Example.ravi_retyped)
  /\ getQuoteFingerprint Example.ravi = getQuoteFingerprint Example.ravi_retyped.
Proof. split; [discriminate | reflexivity]. Qed.

(** C8, amended: [normalize] is idempotent, and two quotations whose dates
    and customer names hold no underscore have the same fingerprint only if
    their dates, customer names and quote numbers agree once normalised. *)
Theorem normalize_idempotent_fingerprint_separates {R : Runtime} :
  (forall val : jsval, normalize (VStr (normalize val)) = normalize val)
  /\ (forall q1 q2 : Quotation,
        underscore_free (date q1) -> underscore_free (customerName q1) ->
        underscore_free (date q2) -> underscore_free (customerName q2) ->
        getQuoteFingerprint q1 = getQuoteFingerprint q2 ->
        normalize (VStr (date q1)) = normalize (VStr (date q2))
        /\ normalize (VStr (customerName q1)) = normalize (VStr (customerName q2))
        /\ normalize (VStr (quoteNumber q1)) = normalize (VStr (quoteNumber q2))).
Proof.
  split.
  - intros val. unfold normalize at 1. cbn [is_nullish js_String].
    unfold normalize. destruct (is_nullish val); [reflexivity|].
    apply normalize_string_idem.
  - intros q1 q2 Hd1 Hc1 Hd2 Hc2 E.
    unfold normalize; cbn [is_nullish js_String].
    now apply fingerprint_determines_normalized.
Qed.

Lemma normalize_idempotent_fingerprint_separates_witness :
  let normalize := normalize (R := Example.runtime) in
  normalize (VStr (normalize (VStr "  Ravi   KUMAR "))) = "ravi kumar"
  /\ underscore_free (date Example.ravi)
  /\ getQuoteFingerprint Example.ravi = getQuoteFingerprint Example.ravi_retyped
  /\ normalize (VStr (customerName Example.ravi))
     = normalize (VStr (customerName Example.ravi_retyped)).
Proof.
  intros normalize; subst normalize.
  split; [|split; [|split]].
  - rewrite (proj1 normalize_idempotent_fingerprint_separates). reflexivity.
  - reflexivity.
  - reflexivity.
  - apply (proj2 normalize_idempotent_fingerprint_separates
             Example.ravi Example.ravi_retyped); reflexivity.
Defined.

(* ================================================================== *)
(** * Base 36 *)

Lemma digit36_value_digit36 (d : Z) :
  (0 <= d < 36)%Z -> digit36_value (digit36 d) = d.
Proof.
  intros H.
  assert (Hcases : In d (map Z.of_nat (List.seq 0 36))).
  { apply in_map_iff. exists (Z.to_nat d). split; [lia|].
    apply in_seq. lia. }
  cbn in Hcases.
  repeat (destruct Hcases as [<- | Hcases]; [reflexivity|]).
  destruct Hcases.
Qed.

Lemma string_app_assoc (a b c : string) : (a ++ b) ++ c = a ++ (b ++ c).
Proof. induction a as [|x a IH]; cbn [append]; [reflexivity | now rewrite IH]. Qed.

Lemma string_length_app (a b : string) :
  String.length (a ++ b) = (String.length a + String.length b)%nat.
Proof. induction a as [|x a IH]; cbn [append String.length]; [reflexivity | now rewrite IH]. Qed.

Lemma read36_app (a b : string) (acc : Z) :
  read36 (a ++ b) acc = read36 b (read36 a acc).
Proof.
  revert acc; induction a as [|c a IH]; intros acc; cbn [append read36];
    [reflexivity | apply IH].
Qed.

(** With fuel for all its digits, [toString36_digits] writes the digits of
    [n] in front of [acc]. *)
Lemma toString36_digits_read (fuel : nat) (n : Z) (acc : string) :
  (0 <= n < 36 ^ Z.of_nat fuel)%Z -> (0 < fuel)%nat ->
  exists digits : string,
    toString36_digits fuel n acc = digits ++ acc
    /\ forall a : Z,
         read36 digits a = (a * 36 ^ Z.of_nat (String.length digits) + n)%Z.
Proof.
  revert n acc; induction fuel as [|fuel IH]; intros n acc Hn Hfuel; [lia|].
  cbn [toString36_digits].
  pose proof (Z.mod_pos_bound n 36 ltac:(lia)) as Hmod.
  pose proof (Z.div_mod n 36 ltac:(lia)) as Hdiv.
  destruct (n / 36 =? 0)%Z eqn:Hq.
  - apply Z.eqb_eq in Hq.
    exists (String (digit36 (n mod 36)) EmptyString). split; [reflexivity|].
    intros a. cbn [read36 String.length].
    rewrite digit36_value_digit36 by lia. change (36 ^ Z.of_nat 1)%Z with 36%Z. lia.
  - apply Z.eqb_neq in Hq.
    assert (Hfuel' : (0 < fuel)%nat).
    { destruct fuel; [|lia]. change (36 ^ Z.of_nat 1)%Z with 36%Z in Hn.
      exfalso. apply Hq. apply Z.div_small. lia. }
    assert (Hn' : (0 <= n / 36 < 36 ^ Z.of_nat fuel)%Z).
    { split; [apply Z.div_pos; lia|].
      apply Z.div_lt_upper_bound; [lia|].
      rewrite Nat2Z.inj_succ, Z.pow_succ_r in Hn by lia. lia. }
    destruct (IH (n / 36)%Z (String (digit36 (n mod 36)) acc) Hn' Hfuel')
      as (digits & Hdigits & Hread).
    exists (digits ++ String (digit36 (n mod 36)) EmptyString). split.
    + rewrite Hdigits, string_app_assoc. reflexivity.
    + intros a. rewrite read36_app, Hread. cbn [read36].
      rewrite digit36_value_digit36 by lia.
      rewrite string_length_app. cbn [String.length].
      rewrite Nat2Z.inj_add, Z.pow_add_r by lia.
      change (36 ^ Z.of_nat 1)%Z with 36%Z. nia.
Qed.

(** [toString36] has fuel enough: the text it gives reads back as [n]. *)
Lemma read36_toString36 (n : Z) : (0 <= n)%Z -> read36 (toString36 n) 0 = n.
Proof.
  intros Hn. unfold toString36.
  assert (Hbound : (n < 36 ^ Z.of_nat (S (Z.to_nat (Z.log2 n))))%Z).
  { rewrite Nat2Z.inj_succ, Z2Nat.id by apply Z.log2_nonneg.
    destruct (Z.eq_dec n 0) as [-> | Hpos]; [reflexivity|].
    pose proof (Z.log2_spec n ltac:(lia)) as [_ Hlog].
    apply Z.lt_le_trans with (1 := Hlog).
    apply Z.pow_le_mono_l. pose proof (Z.log2_nonneg n). lia. }
  destruct (toString36_digits_read (S (Z.to_nat (Z.log2 n))) n EmptyString
              (conj Hn Hbound) ltac:(lia)) as (digits & Hdigits & Hread).
  rewrite Hdigits, read36_app, Hread. cbn [read36]. lia.
Qed.

(* ================================================================== *)
(** * Generated identifiers *)

Lemma to_int32_range (z : Z) : (- 2 ^ 31 <= Int32.to_int32 z < 2 ^ 31)%Z.
Proof.
  unfold Int32.to_int32.
  pose proof (Z.mod_pos_bound (z + 2 ^ 31) (2 ^ 32) ltac:(lia)). lia.
Qed.

Lemma hash_step_int32 (hash char : Z) :
  hash_step hash char = Int32.to_int32 (Int32.shl hash 5 - hash + char).
Proof. unfold hash_step, Int32.and. apply Z.land_diag. Qed.

(** The hash stays a 32-bit integer. *)
Lemma hash_loop_range (str : string) (hash : Z) :
  (- 2 ^ 31 <= hash < 2 ^ 31)%Z ->
  (- 2 ^ 31 <= hash_loop str hash < 2 ^ 31)%Z.
Proof.
  revert hash; induction str as [|c str IH]; intros hash H; cbn [hash_loop].
  - exact H.
  - apply IH. rewrite hash_step_int32. apply to_int32_range.
Qed.

Lemma length_app_cons (a : string) (u : ascii) (r : string) :
  (String.length (a ++ String u r) =? 0)%nat = false.
Proof. destruct a; reflexivity. Qed.

Section GeneratedId.

Context {R : Runtime}.

(** A record without a usable identifier gets the marker [gen_] and the
    base-36 digits of the absolute value of the hash of its signature. *)
Lemma generated_id_formula (now : string) (data : jsval) :
  isMissingId (raw_id_of data) = true ->
  id (normalized now data) =
  "gen_" ++ toString36
              (Z.abs (hash_loop (signature (customer_of data) (dateStr_of now data)
                                           (quoteNum_of data)) 0)).
Proof.
  intros H. cbn [normalized id]. unfold id_of. rewrite H.
  unfold generateStableId, signature. cbn [append].
  now rewrite length_app_cons.
Qed.

(** A record with a usable identifier keeps it, trimmed. *)
Lemma backend_id_kept (now : string) (data : jsval) :
  isMissingId (raw_id_of data) = false ->
  id (normalized now data) = raw_id_of data.
Proof. intros H. cbn [normalized id]. unfold id_of. now rewrite H. Qed.

(** The identifier does not depend on the clock for a record that carries
    a date, nor between two readings of the clock on the same day. *)
Lemma generated_id_stable (now1 now2 : string) (data : jsval) :
  is_empty (date_text data) = false \/ split_head "T" now1 = split_head "T" now2 ->
  id (normalized now1 data) = id (normalized now2 data).
Proof.
  intros H. cbn [normalized id]. unfold id_of, dateStr_of.
  destruct H as [H | H]; [rewrite H | rewrite H]; reflexivity.
Qed.

End GeneratedId.

(** C3, the code at a record with neither identifier nor date: fetched on
    two different days, it gets two different identifiers, because the
    missing date is replaced by the day of the fetch before the signature
    is hashed. *)
Theorem generated_id_follows_the_clock :
  exists q1 q2 : Quotation,
    normalizeQuote Example.jan5 Example.undated = Returns q1
    /\ normalizeQuote Example.jan6 Example.undated = Returns q2
    /\ id q1 = "gen_956ddj"
    /\ id q2 = "gen_95q5yw"
    /\ id q1 <> id q2.
Proof.
  eexists; eexists.
  split; [reflexivity|]. split; [reflexivity|].
  split; [reflexivity|]. split; [reflexivity|].
  vm_compute. discriminate.
Qed.

(* ================================================================== *)
(** * Line items *)

Section LineItems.

Context {R : Runtime}.


End LineItems.


(* ================================================================== *)
(** * The grand total of a card *)

Section GrandTotal.

Context {R : Runtime}.




End GrandTotal.


(* ================================================================== *)
(** * The service: fetch, save, delete *)

Section ServiceFacts.

Context {R : Runtime}.



(** Whatever [fetchQuotes] returns holds no record marked Deleted. *)
Lemma fetchQuotes_hides_Deleted (now : string) (net : FetchOutcome)
    (qs : list Quotation) :
  fetchQuotes now net = Returns qs -> Forall (fun q => is_Deleted q = false) qs.
Proof.
  unfold fetchQuotes. destruct net as [|resp]; cbn [await_fetch bind]; [discriminate|].
  destruct (negb (resp_ok resp)); [discriminate|].
  destruct (startsWith_char "<" (trim (resp_text resp))); [discriminate|].
  destruct (JSON_parse (resp_text resp)) as [result|]; cbn [bind]; [|discriminate].
  destruct (is_nullish result); [discriminate|].
  destruct (map_normalizeQuote now (rawData_of result)) as [normalized|e];
    cbn [bind]; [|discriminate].
  intros [= <-]. apply Forall_forall. intros q Hq.
  apply filter_In in Hq as [_ Hq]. now apply negb_true_iff in Hq.
Qed.


(** C5, amended: [saveQuote] passes on the failure of the request itself,
    and throws when the body is not JSON and its trimmed text starts with
    [<]; on every other response it returns, whether the body is JSON
    with another status than success or a text that is not JSON. *)
Theorem saveQuote_outcomes :
  saveQuote Rejected = Throws FetchRejected
  /\ forall resp : Response,
       let text := resp_text resp in
       (startsWith_char "<" (trim text) = false ->
        saveQuote (Responded resp) = Returns tt)
       /\ (unreadable text = false -> saveQuote (Responded resp) = Returns tt)
       /\ (unreadable text = true -> startsWith_char "<" (trim text) = true ->
           saveQuote (Responded resp) = Throws HtmlResponse).
Proof.
  split; [reflexivity|].
  intros resp text. unfold saveQuote, unreadable; cbn [await_fetch bind]. fold text.
  destruct (JSON_parse text) as [result|]; cbn [bind try_catch].
  - destruct (is_nullish result); cbn [try_catch]; repeat split;
      try discriminate; try (intros ->; reflexivity).
    intros _ ->; reflexivity.
  - repeat split; try discriminate; try (intros ->; reflexivity).
    intros _ ->; reflexivity.
Qed.

(** The body of the soft delete is the quotation with the status Deleted
    and its identifier and number under their other names. *)
Lemma softDeleteQuote_fields (quote : Quotation) :
  let fields := softDeleteQuote quote in
  lookup "status" fields = VStr "Deleted"
  /\ lookup "id" fields = VStr (id quote)
  /\ lookup "Id" fields = VStr (id quote)
  /\ lookup "ID" fields = VStr (id quote)
  /\ lookup "quoteNumber" fields = VStr (quoteNumber quote)
  /\ lookup "quote_number" fields = VStr (quoteNumber quote).
Proof.
  unfold softDeleteQuote, Quotation_fields.
  destruct (isOptionQuote quote); repeat split; reflexivity.
Qed.

(** C6: [deleteQuote] sends the soft delete first and waits for it; when
    that request goes through, the hard delete is sent without waiting and
    its own failure handled on the spot; when it fails, the hard delete is
    sent and waited for, and its failure caught.  The promise of
    [deleteQuote] is fulfilled in every case.  When it settles, the
    handler changes neither the list, nor the storage, nor the error
    banner, and raises no alert. *)
Theorem deleteQuote_best_effort (quote : Quotation) (soft hard : FetchOutcome) :
  let run := deleteQuote quote soft hard in
  sent run =
    [(savePayload quote, Awaited);
     (deletePayload quote,
      match soft with
      | Responded _ => FireAndForget
      | Rejected => Awaited
      end)]
  /\ req_action (savePayload quote) = action_save
  /\ req_body (savePayload quote) =
     VObj [("action", VStr "save"); ("quote", VObj (softDeleteQuote quote))]
  /\ lookup "status" (softDeleteQuote quote) = VStr "Deleted"
  /\ lookup "Id" (softDeleteQuote quote) = VStr (id quote)
  /\ lookup "ID" (softDeleteQuote quote) = VStr (id quote)
  /\ req_action (deletePayload quote) = action_delete
  /\ settles run = Returns tt
  /\ forall st : AppState,
       let after := handleDeleteQuote_settled (settles run) in
       quotes (state_after after st) = quotes st
       /\ localStorage (state_after after st) = localStorage st
       /\ errorMsg (state_after after st) = errorMsg st
       /\ ~ In Alert (effects_of after st).
Proof.
  intros run.
  destruct (softDeleteQuote_fields quote) as (Hstatus & _ & HId & HID & _).
  split; [destruct soft; reflexivity|].
  do 6 (split; [assumption || reflexivity|]).
  split; [destruct soft, hard; reflexivity|].
  intros st after. repeat split.
  cbn. intros [H | [H | []]]; discriminate.
Qed.

End ServiceFacts.



(** C5, the claim as stated fails: a response to the save whose body is an
    HTML page makes [saveQuote] throw. *)
Lemma saveQuote_throws_on_html :
  saveQuote (R := Example.runtime) (Responded (Example.response "<html>"))
  = Throws HtmlResponse.
Proof. reflexivity. Qed.

Lemma saveQuote_outcomes_witness :
  let saveQuote := saveQuote (R := Example.runtime) in
  saveQuote (Responded (Example.response "oops")) = Returns tt
  /\ saveQuote (Responded (Example.response "{}")) = Returns tt
  /\ saveQuote (Responded (Example.response "<html>")) = Throws HtmlResponse.
Proof.
  intros f; subst f.
  pose proof (proj2 (saveQuote_outcomes (R := Example.runtime))) as H.
  split; [|split].
  - destruct (H (Example.response "oops")) as (Hplain & _ & _).
    apply Hplain; reflexivity.
  - destruct (H (Example.response "{}")) as (_ & Hjson & _).
    apply Hjson; reflexivity.
  - destruct (H (Example.response "<html>")) as (_ & _ & Hhtml).
    apply Hhtml; reflexivity.
Defined.

(* ================================================================== *)
(** * Synchronisation *)

Ltac run_handler :=
  unfold setView, setSelectedQuote, setIsSyncing, setLastSyncTime, setErrorMsg,
    setQuotes, set_pauseSync, setItem_tyreQuotes, setItem_bl_ids,
    setItem_bl_numbers, setItem_bl_fingerprints, emit, when;
  unfold state_after, effects_of, hbind, read, effect, ret;
  cbv beta iota zeta.

Section Sync.

Context {R : Runtime}.

Lemma isValidQuote_spec (bl : Blacklist) (q : Quotation) :
  isValidQuote bl q = negb (is_Deleted q) && negb (tombstoned bl q).
Proof.
  unfold isValidQuote, tombstoned.
  destruct (is_Deleted q); [reflexivity|].
  destruct (Set_has (ids bl) _); [reflexivity|].
  destruct (Set_has (numbers bl) _); [reflexivity|].
  destruct (Set_has (fingerprints bl) _); reflexivity.
Qed.

(** ** The two guards of [fetchRemoteQuotes] *)

Lemma fetchRemoteQuotes_start_paused (isBackground : bool) (st : AppState) :
  pauseSync st = true -> fetchRemoteQuotes_start isBackground st = (false, st, []).
Proof. intros H. unfold fetchRemoteQuotes_start. run_handler. now rewrite H. Qed.

Lemma fetchRemoteQuotes_resume_paused (isBackground : bool) (now : string)
    (fetched : result (list Quotation)) (st : AppState) :
  pauseSync st = true ->
  let st' := state_after (fetchRemoteQuotes_resume isBackground now fetched) st in
  quotes st' = quotes st /\ localStorage st' = localStorage st
  /\ pauseSync st' = true.
Proof.
  intros H. unfold fetchRemoteQuotes_resume. run_handler.
  destruct fetched as [cloudQuotes|err]; [rewrite H|];
    destruct isBackground; cbn; auto.
Qed.

Lemma fetchRemoteQuotes_resume_applied (isBackground : bool) (now : string)
    (cloudQuotes : list Quotation) (st : AppState) :
  pauseSync st = false ->
  let st' := state_after
               (fetchRemoteQuotes_resume isBackground now (Returns cloudQuotes)) st in
  let validQuotes := filter (isValidQuote (getLocallyBlacklistedItems (localStorage st)))
                            cloudQuotes in
  quotes st' = validQuotes
  /\ tyreQuotes (localStorage st') = Some validQuotes
  /\ lastSyncTime st' = Some now.
Proof.
  intros H. unfold fetchRemoteQuotes_resume. run_handler. rewrite H.
  destruct isBackground; cbn; auto.
Qed.

Lemma backgroundSync_paused (st : AppState) :
  pauseSync st = true -> backgroundSync st = (false, st, []).
Proof.
  intros H. unfold backgroundSync. run_handler.
  destruct (useGoogleSheets st && sheetsService st); [|reflexivity].
  rewrite H, andb_false_r. reflexivity.
Qed.

(** C1: when a sync applies what it fetched, the list shown and the cached
    list are the same list, and a fetched record is in it exactly when its
    status is not Deleted and none of its normalised identifier, its
    normalised quote number and its fingerprint is in the tombstone set of
    that kind, as read from the storage at that moment; one of the three
    being there keeps the record out. *)
Theorem sync_applies_only_untombstoned (st : AppState) (isBackground : bool)
    (now : string) (cloudQuotes : list Quotation) :
  pauseSync st = false ->
  let st' := state_after
               (fetchRemoteQuotes_resume isBackground now (Returns cloudQuotes)) st in
  let bl := getLocallyBlacklistedItems (localStorage st) in
  tyreQuotes (localStorage st') = Some (quotes st')
  /\ (forall q : Quotation,
        In q (quotes st') <->
        In q cloudQuotes
        /\ strict_eq_string (status q) "Deleted" = false
        /\ Set_has (ids bl) (VStr (normalize (VStr (id q)))) = false
        /\ Set_has (numbers bl) (VStr (normalize (VStr (quoteNumber q)))) = false
        /\ Set_has (fingerprints bl) (VStr (getQuoteFingerprint q)) = false)
  /\ (forall q : Quotation,
        Set_has (ids bl) (VStr (normalize (VStr (id q)))) = true
        \/ Set_has (numbers bl) (VStr (normalize (VStr (quoteNumber q)))) = true
        \/ Set_has (fingerprints bl) (VStr (getQuoteFingerprint q)) = true ->
        ~ In q (quotes st')).
Proof.
  intros Hpause st' bl.
  destruct (fetchRemoteQuotes_resume_applied isBackground now cloudQuotes st Hpause)
    as (Hquotes & Hcache & _).
  fold st' bl in Hquotes, Hcache.
  assert (Hin : forall q, In q (quotes st') <->
                          In q cloudQuotes /\ is_Deleted q = false
                          /\ tombstoned bl q = false).
  { intros q. rewrite Hquotes, filter_In, isValidQuote_spec, andb_true_iff,
      !negb_true_iff. reflexivity. }
  split; [now rewrite Hcache, Hquotes|]. split.
  - intros q. rewrite Hin. unfold tombstoned, is_Deleted.
    rewrite !orb_false_iff. tauto.
  - intros q Hq Hshown. apply Hin in Hshown as (_ & _ & Hfree).
    unfold tombstoned in Hfree. rewrite !orb_false_iff in Hfree.
    destruct Hfree as ((H1 & H2) & H3). destruct Hq as [Hq | [Hq | Hq]]; congruence.
Qed.

End Sync.

Lemma sync_applies_only_untombstoned_witness :
  let st := Example.showing [] (Example.storage (Parsed (VArr [VStr "q-7"]))) in
  let st' := state_after
               (fetchRemoteQuotes_resume true Example.jan5
                  (Returns [Example.ravi; Example.ravi_retyped])) st in
  pauseSync st = false
  /\ tyreQuotes (localStorage st') = Some (quotes st')
  /\ ~ In Example.ravi (quotes st').
Proof.
  intros st st'.
  destruct (sync_applies_only_untombstoned st true Example.jan5
              [Example.ravi; Example.ravi_retyped] eq_refl) as (Hcache & _ & Hout).
  split; [reflexivity|]. split; [exact Hcache|].
  apply Hout. left. reflexivity.
Defined.

(* ================================================================== *)
(** * Deleting a quotation *)

Section Delete.

Context {R : Runtime}.

Lemma find_id_is (i : string) (qs : list Quotation) (q : Quotation) :
  In q qs -> id q = i ->
  exists q', find (id_is i) qs = Some q' /\ id q' = i.
Proof.
  intros Hin Hid.
  destruct (find (id_is i) qs) as [q'|] eqn:Hfind.
  - exists q'. split; [reflexivity|].
    apply find_some in Hfind as [_ H]. now apply String.eqb_eq in H.
  - exfalso. apply (find_none _ _ Hfind) in Hin.
    unfold id_is in Hin. rewrite Hid, String.eqb_refl in Hin. discriminate.
Qed.

(** What [handleDeleteQuote] does to a quotation it finds, with a service. *)
Lemma handleDeleteQuote_found (st : AppState) (i : string) (q : Quotation) :
  find (id_is i) (quotes st) = Some q ->
  sheetsService st = true -> useGoogleSheets st = true ->
  let updatedQuotes := filter (fun q => negb (id_is i q)) (quotes st) in
  effects_of (handleDeleteQuote i) st =
    (PauseSync true :: ledger_writes
     ++ [SetQuotes updatedQuotes; SetItem "tyreQuotes"; CallDeleteQuote q])%list
  /\ pauseSync (state_after (handleDeleteQuote i) st) = true
  /\ quotes (state_after (handleDeleteQuote i) st) = updatedQuotes
  /\ errorMsg (state_after (handleDeleteQuote i) st) = errorMsg st.
Proof.
  intros Hfind Hservice Huse updatedQuotes.
  unfold handleDeleteQuote. run_handler. rewrite Hfind. cbv beta iota zeta.
  cbn [selectedQuote with_pauseSync with_localStorage with_quotes].
  destruct (selectedQuote st) as [sel|]; [destruct (id_is i sel)|];
    cbv beta iota zeta;
    cbn [fst snd sheetsService useGoogleSheets with_pauseSync with_localStorage
         with_quotes with_selectedQuote with_view];
    rewrite Hservice, Huse; cbn; repeat split.
Qed.

Lemma not_shown_after_filter (i : string) (qs : list Quotation) :
  Forall (fun q => id q <> i) (filter (fun q => negb (id_is i q)) qs).
Proof.
  apply Forall_forall. intros q Hq. apply filter_In in Hq as [_ Hq].
  apply negb_true_iff in Hq. unfold id_is in Hq. now apply String.eqb_neq in Hq.
Qed.

(** While the pause lasts, neither the interval nor a fetch that settles
    changes the list. *)
Lemma sync_step_paused (st : AppState) (ev : SyncEvent) :
  pauseSync st = true ->
  pauseSync (sync_step st ev) = true /\ quotes (sync_step st ev) = quotes st.
Proof.
  intros H. destruct ev as [|isBackground now fetched]; cbn [sync_step].
  - unfold state_after. rewrite (backgroundSync_paused st H). auto.
  - destruct (fetchRemoteQuotes_resume_paused isBackground now fetched st H)
      as (Hq & _ & Hp). auto.
Qed.

Lemma sync_run_paused (evs : list SyncEvent) (st : AppState) :
  pauseSync st = true ->
  pauseSync (sync_run evs st) = true /\ quotes (sync_run evs st) = quotes st.
Proof.
  revert st; induction evs as [|ev evs IH]; intros st H; [auto|].
  cbn [sync_run fold_left]. destruct (sync_step_paused st ev H) as [Hp Hq].
  destruct (IH _ Hp) as [Hp' Hq']. unfold sync_run in *. split; congruence.
Qed.

(** C2: deleting a quotation that is in the list, with a service.  The
    pause flag is raised first, before the three writes of the ledger, the
    update of the list and of its cache, and the call of [deleteQuote]; a
    fetch asked for during the pause is not started, and one that settles
    during the pause leaves the list alone; so however the interval fires
    and fetches settle after the delete, whatever they bring, no quotation
    of that identifier comes back into the list. *)
Theorem delete_pauses_sync (st : AppState) (i : string) (q : Quotation)
    (evs : list SyncEvent) :
  In q (quotes st) -> id q = i ->
  sheetsService st = true -> useGoogleSheets st = true ->
  let deleted := state_after (handleDeleteQuote i) st in
  (exists quoteToDelete : Quotation,
     id quoteToDelete = i
     /\ effects_of (handleDeleteQuote i) st =
        (PauseSync true :: ledger_writes
         ++ [SetQuotes (quotes deleted); SetItem "tyreQuotes";
             CallDeleteQuote quoteToDelete])%list)
  /\ pauseSync deleted = true
  /\ (forall (st0 : AppState) (isBackground : bool),
        pauseSync st0 = true ->
        fetchRemoteQuotes_start isBackground st0 = (false, st0, []))
  /\ (forall (st0 : AppState) (isBackground : bool) (now : string)
             (fetched : result (list Quotation)),
        pauseSync st0 = true ->
        quotes (state_after (fetchRemoteQuotes_resume isBackground now fetched) st0)
        = quotes st0)
  /\ (forall q' : Quotation, In q' (quotes (sync_run evs deleted)) -> id q' <> i).
Proof.
  intros Hin Hid Hservice Huse deleted.
  destruct (find_id_is i (quotes st) q Hin Hid) as (found & Hfind & Hfound).
  destruct (handleDeleteQuote_found st i found Hfind Hservice Huse)
    as (Heffects & Hpause & Hquotes & _).
  fold deleted in Hpause, Hquotes.
  split; [exists found; split; [exact Hfound | now rewrite Hquotes]|].
  split; [exact Hpause|].
  split; [intros st0 bg H; now apply fetchRemoteQuotes_start_paused|].
  split; [intros st0 bg now fetched H;
          now apply (fetchRemoteQuotes_resume_paused bg now fetched st0 H)|].
  intros q' Hq'.
  destruct (sync_run_paused evs deleted Hpause) as [_ Hsame].
  rewrite Hsame, Hquotes in Hq'.
  pose proof (not_shown_after_filter i (quotes st)) as Hout.
  rewrite Forall_forall in Hout. now apply Hout.
Qed.

(** Without a service the interval is not installed, so no background
    refresh follows the delete. *)
Lemma backgroundSync_without_service (st : AppState) :
  useGoogleSheets st && sheetsService st = false ->
  backgroundSync st = (false, st, []).
Proof. intros H. unfold backgroundSync. run_handler. now rewrite H. Qed.

End Delete.

Lemma delete_pauses_sync_witness :
  let st := Example.showing [Example.ravi; Example.ravi_retyped]
              (Example.storage Absent) in
  let deleted := state_after (handleDeleteQuote "q-7") st in
  let evs := [IntervalFires;
              FetchSettles true Example.jan5
                (Returns [Example.ravi; Example.ravi_retyped])] in
  In Example.ravi (quotes st)
  /\ pauseSync deleted = true
  /\ quotes (sync_run evs deleted) = [Example.ravi_retyped]
  /\ (forall q' : Quotation, In q' (quotes (sync_run evs deleted)) -> id q' <> "q-7").
Proof.
  intros st deleted evs.
  destruct (delete_pauses_sync st "q-7" Example.ravi evs
              (or_introl eq_refl) eq_refl eq_refl eq_refl)
    as (_ & Hpause & _ & _ & Hout).
  split; [left; reflexivity|]. split; [exact Hpause|].
  split; [reflexivity | exact Hout].
Defined.

(* ================================================================== *)
(** * The tombstone ledger *)

Section LedgerFacts.

Context {R : Runtime}.

Lemma same_value_zero_string (x : string) (v : jsval) :
  same_value_zero (VStr x) v = true <-> v = VStr x.
Proof.
  destruct v as [| |b|n|s|l|f]; cbn [same_value_zero];
    try (split; [discriminate | intros H; discriminate H]).
  rewrite String.eqb_eq. split; [intros ->; reflexivity | intros [= ->]; reflexivity].
Qed.

Lemma Set_has_string (s : JSSet) (x : string) :
  Set_has s (VStr x) = true <-> In (VStr x) s.
Proof.
  unfold Set_has. rewrite existsb_exists. split.
  - intros (v & Hv & E). apply same_value_zero_string in E. now subst.
  - intros H. exists (VStr x). split; [exact H|]. now apply same_value_zero_string.
Qed.

Lemma Set_has_string_false (s : JSSet) (x : string) :
  Set_has s (VStr x) = false <-> ~ In (VStr x) s.
Proof.
  rewrite <- Set_has_string. destruct (Set_has s (VStr x)); split; congruence.
Qed.

Lemma In_Set_add_string (s : JSSet) (w : jsval) (x : string) :
  In (VStr x) (Set_add s w) <-> In (VStr x) s \/ w = VStr x.
Proof.
  unfold Set_add. destruct (Set_has s w) eqn:Hw.
  - split; [auto|]. intros [H | ->]; [exact H | now apply Set_has_string].
  - rewrite in_app_iff. cbn [In]. intuition congruence.
Qed.

Lemma In_new_Set_string (l acc : list jsval) (x : string) :
  In (VStr x) (fold_left Set_add l acc) <-> In (VStr x) acc \/ In (VStr x) l.
Proof.
  revert acc; induction l as [|w l IH]; intros acc; cbn [fold_left In].
  - tauto.
  - rewrite IH, In_Set_add_string. intuition congruence.
Qed.

Lemma In_migrate_string (items : list jsval) (acc : JSSet) (x : string) :
  In (VStr x) (fold_left (fun s id => Set_add s (VStr (normalize id))) items acc)
  <-> In (VStr x) acc \/ exists item, In item items /\ normalize item = x.
Proof.
  revert acc; induction items as [|w items IH]; intros acc; cbn [fold_left In].
  - split; [auto | intros [H | (item & [] & _)]; exact H].
  - rewrite IH, In_Set_add_string. split.
    + intros [[H | [= H]] | (item & Hin & E)]; eauto.
    + intros [H | (item & [-> | Hin] & E)]; [auto | left; right; congruence | eauto].
Qed.

Lemma In_without_string (s : JSSet) (x y : string) :
  In (VStr y) (without_string s x) <-> In (VStr y) s /\ y <> x.
Proof.
  unfold without_string. rewrite filter_In. cbn [strict_eq_string].
  rewrite negb_true_iff, String.eqb_neq. reflexivity.
Qed.

(** The ledger read back after its three arrays have been written. *)
Lemma getLocallyBlacklistedItems_written (ls : LocalStorage)
    (i n f : list jsval) (x : string) :
  bl_ids ls = Parsed (VArr i) ->
  bl_numbers ls = Parsed (VArr n) ->
  bl_fingerprints ls = Parsed (VArr f) ->
  let bl := getLocallyBlacklistedItems ls in
  (In (VStr x) (ids bl) -> In (VStr x) i \/ legacy_mentions ls x)
  /\ (In (VStr x) (numbers bl) -> In (VStr x) n)
  /\ (In (VStr x) (fingerprints bl) -> In (VStr x) f).
Proof.
  intros Hi Hn Hf. unfold getLocallyBlacklistedItems, legacy_mentions.
  rewrite Hi, Hn, Hf. cbn [parse_item bind new_Set].
  destruct (blacklistedIds ls) as [| |legacy]; cbn [parse_item bind migrate_legacy].
  - cbn [fold_left ids numbers fingerprints]. rewrite !In_new_Set_string.
    cbn [In]. tauto.
  - cbn [ids numbers fingerprints empty_blacklist In]. tauto.
  - destruct legacy as [| |b|m|s|items|g];
      cbn [migrate_legacy bind ids numbers fingerprints empty_blacklist In];
      try tauto.
    rewrite In_migrate_string, !In_new_Set_string. cbn [In].
    repeat split; try tauto.
    intros [[[] | H] | (item & Hin & E)]; [auto|]. right. eauto.
Qed.

Lemma getLocallyBlacklistedItems_store_tyreQuotes (qs : list Quotation)
    (ls : LocalStorage) :
  getLocallyBlacklistedItems (store_tyreQuotes qs ls) = getLocallyBlacklistedItems ls.
Proof. reflexivity. Qed.

(** Saving a quotation takes its three keys out of the ledger, unless the
    legacy ledger holds its identifier. *)
Lemma handleSaveQuote_resurrects (st : AppState) (quote : Quotation) :
  ~ legacy_mentions (localStorage st) (normalize (VStr (id quote))) ->
  tombstoned
    (getLocallyBlacklistedItems
       (localStorage (state_after (handleSaveQuote_start quote) st)))
    quote = false.
Proof.
  intros Hlegacy. unfold handleSaveQuote_start. run_handler.
  cbn [localStorage with_quotes with_view with_selectedQuote].
  set (bl := getLocallyBlacklistedItems (localStorage st)).
  set (qId := normalize (VStr (id quote))) in *.
  set (qNum := normalize (VStr (quoteNumber quote))).
  set (qPrint := getQuoteFingerprint quote).
  destruct (Set_has (ids bl) (VStr qId) || Set_has (numbers bl) (VStr qNum)
            || Set_has (fingerprints bl) (VStr qPrint)) eqn:Hany;
    cbv beta iota zeta;
    cbn [fst snd localStorage sheetsService useGoogleSheets with_quotes with_view
         with_selectedQuote with_localStorage];
    destruct (sheetsService st && useGoogleSheets st);
    cbv beta iota zeta;
    cbn [fst snd localStorage with_localStorage with_isSyncing with_pauseSync];
    rewrite getLocallyBlacklistedItems_store_tyreQuotes.
  3,4: exact Hany.
  all: unfold tombstoned; fold qId qNum qPrint;
    match goal with
    | |- context [getLocallyBlacklistedItems ?ls] =>
        destruct (getLocallyBlacklistedItems_written ls
                    (without_string (ids bl) qId) (without_string (numbers bl) qNum)
                    (without_string (fingerprints bl) qPrint) qId
                    eq_refl eq_refl eq_refl) as (Hi & _ & _);
        destruct (getLocallyBlacklistedItems_written ls
                    (without_string (ids bl) qId) (without_string (numbers bl) qNum)
                    (without_string (fingerprints bl) qPrint) qNum
                    eq_refl eq_refl eq_refl) as (_ & Hn & _);
        destruct (getLocallyBlacklistedItems_written ls
                    (without_string (ids bl) qId) (without_string (numbers bl) qNum)
                    (without_string (fingerprints bl) qPrint) qPrint
                    eq_refl eq_refl eq_refl) as (_ & _ & Hf)
    end;
    rewrite !orb_false_iff, !Set_has_string_false; repeat split; intros Hin.
  all: try (apply Hi in Hin as [Hin | Hin];
            [apply In_without_string in Hin as [_ Hin]; now apply Hin
            | apply Hlegacy; exact Hin]).
  all: try (apply Hn in Hin; apply In_without_string in Hin as [_ Hin]; now apply Hin).
  all: try (apply Hf in Hin; apply In_without_string in Hin as [_ Hin]; now apply Hin).
Qed.

End LedgerFacts.

(** C7, the code at a quotation whose identifier is in the legacy ledger
    [blacklistedIds]: saving it rewrites [bl_ids] but the next read folds
    the legacy entry in again, so the identifier is still tombstoned and a
    refresh that fetches the quotation takes it off the list. *)
Theorem resurrection_misses_legacy_ledger :
  let st := Example.showing [] (Example.storage (Parsed (VArr [VStr "q-7"]))) in
  let saved := state_after (handleSaveQuote_resume (Returns tt))
                 (state_after (handleSaveQuote_start Example.ravi) st) in
  let refreshed := state_after
                     (fetchRemoteQuotes_resume false Example.jan5
                        (Returns [Example.ravi]))
                     (state_after (handleRefresh Example.jan5) saved) in
  quotes saved = [Example.ravi]
  /\ bl_ids (localStorage saved) = Parsed (VArr [])
  /\ Set_has (ids (getLocallyBlacklistedItems (localStorage saved)))
             (VStr (normalize (R := Example.runtime) (VStr (id Example.ravi)))) = true
  /\ quotes refreshed = [].
Proof. repeat split. Qed.

(* ================================================================== *)
(** * After the pause: the ledger keeps a deleted quotation out *)

Section DeleteLedger.

Context {R : Runtime}.





End DeleteLedger.

(* ================================================================== *)
(** * The search of the list *)

Lemma startsWith_spec (sub s : string) :
  startsWith sub s = true <-> exists rest, s = sub ++ rest.
Proof.
  revert s; induction sub as [|c sub IH]; intros s; cbn [startsWith append].
  - split; [intros _; now exists s | reflexivity].
  - destruct s as [|d s].
    + split; [discriminate | intros [rest H]; discriminate H].
    + rewrite andb_true_iff, Ascii.eqb_eq, IH. split.
      * intros [-> [rest ->]]. now exists rest.
      * intros [rest [= -> ->]]. split; [reflexivity | now exists rest].
Qed.

Lemma includes_spec (s sub : string) :
  includes s sub = true <-> exists before after, s = before ++ sub ++ after.
Proof.
  induction s as [|c s IH]; cbn [includes]; rewrite orb_true_iff, startsWith_spec.
  - split.
    + intros [[rest H] | H]; [now exists EmptyString, rest | discriminate].
    + intros ([|d before] & after & H); [left; now exists after | discriminate H].
  - rewrite IH. split.
    + intros [[rest H] | (before & after & ->)].
      * now exists EmptyString, rest.
      * now exists (String c before), after.
    + intros ([|d before] & after & H).
      * left. now exists after.
      * injection H as -> ->. right. now exists before, after.
Qed.

Section Search.

Context {R : Runtime}.

Lemma matchesSearch_spec (searchTerm searchDate : string) (q : Quotation) :
  matchesSearch searchTerm searchDate q = true <->
  (exists before after,
     toLowerCase (customerName q) = before ++ toLowerCase searchTerm ++ after)
  /\ (searchDate = "" \/ date q = searchDate).
Proof.
  unfold matchesSearch. rewrite andb_true_iff, includes_spec.
  destruct searchDate as [|c d]; cbn [is_empty].
  - intuition.
  - rewrite String.eqb_eq. intuition discriminate.
Qed.

(** X1: the cards shown are the quotations of the list whose customer name
    holds the search term, letter case apart, and whose date is the date
    searched for when there is one. *)
Theorem search_shows_the_matches (searchTerm searchDate : string)
    (sortedQuotes : list Quotation) (q : Quotation) :
  In q (filteredQuotes searchTerm searchDate sortedQuotes) <->
  In q sortedQuotes
  /\ (exists before after,
        toLowerCase (customerName q) = before ++ toLowerCase searchTerm ++ after)
  /\ (searchDate = "" \/ date q = searchDate).
Proof. unfold filteredQuotes. now rewrite filter_In, matchesSearch_spec. Qed.


End Search.

(* ================================================================== *)
(** * The delete button of a card *)

Lemma double_click_cons_click (evs : list CardEvent) :
  double_click (ClickDelete :: evs) = starts_with_click evs || double_click evs.
Proof. destruct evs as [|[] evs]; reflexivity. Qed.

Lemma onDelete_calls_deleted (evs : list CardEvent) (c : CardState) :
  card_isDeleted c = true -> onDelete_calls evs c = 0%nat.
Proof.
  revert c; induction evs as [|ev evs IH]; intros c H; [reflexivity|].
  cbn [onDelete_calls]. destruct ev; cbn [card_step].
  - rewrite H. cbn. now apply IH.
  - cbn. apply IH. unfold confirmTimeout.
    destruct (card_deleteStep c =? 1)%Z; exact H.
Qed.

Lemma onDelete_calls_shown (evs : list CardEvent) :
  onDelete_calls evs {| card_isDeleted := false; card_deleteStep := 0 |}
  = (if double_click evs then 1 else 0)%nat
  /\ onDelete_calls evs {| card_isDeleted := false; card_deleteStep := 1 |}
     = (if starts_with_click evs || double_click evs then 1 else 0)%nat.
Proof.
  induction evs as [|ev evs [IH0 IH1]]; [split; reflexivity|].
  destruct ev.
  - split.
    + rewrite double_click_cons_click. exact IH1.
    + change (S (onDelete_calls evs {| card_isDeleted := true; card_deleteStep := 1 |})
              = 1%nat).
      now rewrite onDelete_calls_deleted by reflexivity.
  - split; exact IH0.
Qed.

(** X3: in the life of a card [onDelete] is scheduled at most once, and it
    is scheduled exactly when two clicks on the delete button come in a row,
    with no firing of the 3 s timer in between; one click alone, or a second
    click after the timer, deletes nothing. *)
Theorem delete_needs_two_clicks_in_a_row (evs : list CardEvent) :
  onDelete_calls evs card_mounted = (if double_click evs then 1 else 0)%nat.
Proof. exact (proj1 (onDelete_calls_shown evs)). Qed.

(* ================================================================== *)
(** * What every handler keeps *)

(** Runs a handler through all of its branches. *)
Ltac crunch_handler :=
  run_handler;
  repeat match goal with
         | |- context [if ?b then _ else _] => destruct b eqn:?
         | |- context [match ?x with Some _ => _ | None => _ end] => destruct x eqn:?
         | |- context [match ?x with Returns _ => _ | Throws _ => _ end] => destruct x eqn:?
         end;
  cbv beta iota zeta;
  cbn [fst snd quotes localStorage pauseSync sheetsService useGoogleSheets
       selectedQuote view isSyncing errorMsg lastSyncTime
       with_view with_quotes with_selectedQuote with_isSyncing with_lastSyncTime
       with_errorMsg with_pauseSync with_localStorage
       tyreQuotes bl_ids bl_numbers bl_fingerprints blacklistedIds
       store_tyreQuotes store_bl_ids store_bl_numbers store_bl_fingerprints].

Section Invariants.

Context {R : Runtime}.

Lemma find_none_filter (i : string) (qs : list Quotation) :
  find (id_is i) qs = None -> filter (fun q => negb (id_is i q)) qs = qs.
Proof.
  induction qs as [|q qs IH]; cbn [find filter]; [reflexivity|].
  destruct (id_is i q); [discriminate|]. cbn [negb]. intros H. now rewrite IH.
Qed.

Lemma app_step_cache (st : AppState) (ev : AppEvent) :
  cache_in_step st -> cache_in_step (app_step st ev).
Proof.
  unfold cache_in_step. intros H.
  destruct ev; cbn [app_step];
    unfold handleDeleteQuote, handleDeleteQuote_settled, handleDeleteQuote_timer,
      handleSaveQuote_start, handleSaveQuote_resume, handleSaveQuote_timer,
      handleRefresh, backgroundSync, fetchRemoteQuotes_resume,
      fetchRemoteQuotes_start, loadFromLocalStorage,
      handleEditQuote, handleCreateNew, handleViewList, onCancel;
    crunch_handler; try exact H; try reflexivity.
  all: try (match goal with
            | Hf : find (id_is _) (quotes _) = None |- _ =>
                rewrite (find_none_filter _ _ Hf); exact H
            end).
  all: try congruence.
  all: cbn [localStorage with_pauseSync] in *; congruence.
Qed.

Lemma app_step_legacy (st : AppState) (ev : AppEvent) :
  blacklistedIds (localStorage (app_step st ev)) = blacklistedIds (localStorage st).
Proof.
  destruct ev; cbn [app_step];
    unfold handleDeleteQuote, handleDeleteQuote_settled, handleDeleteQuote_timer,
      handleSaveQuote_start, handleSaveQuote_resume, handleSaveQuote_timer,
      handleRefresh, backgroundSync, fetchRemoteQuotes_resume,
      fetchRemoteQuotes_start, loadFromLocalStorage,
      handleEditQuote, handleCreateNew, handleViewList, onCancel;
    crunch_handler; reflexivity.
Qed.

(** X4: once the list last written under [tyreQuotes] is the list on the
    screen, it stays so whatever the user does, whatever the timers do and
    whatever comes back from the network: every handler that changes the
    list writes it to the cache in the same go. *)
Theorem cache_follows_the_list (evs : list AppEvent) (st : AppState) :
  cache_in_step st ->
  cache_in_step (app_run evs st).
Proof.
  revert st; induction evs as [|ev evs IH]; intros st H; [exact H|].
  cbn [app_run fold_left]. apply IH, app_step_cache, H.
Qed.

(** X5: no handler ever writes the legacy ledger [blacklistedIds]: it is
    read on every look at the ledger and stays as it was found. *)
Theorem legacy_ledger_never_written (evs : list AppEvent) (st : AppState) :
  blacklistedIds (localStorage (app_run evs st)) = blacklistedIds (localStorage st).
Proof.
  revert st; induction evs as [|ev evs IH]; intros st; [reflexivity|].
  cbn [app_run fold_left]. fold (app_run evs (app_step st ev)).
  now rewrite IH, app_step_legacy.
Qed.

End Invariants.

Lemma cache_follows_the_list_witness :
  let st := state_after (handleSaveQuote_start Example.ravi)
              (Example.showing [] (Example.storage Absent)) in
  let evs := [UserSaves Sample.asha; UserDeletes "q-7"; DeleteTimerFires;
              FetchReturns true Example.jan5 (Returns [Example.ravi; Sample.asha])] in
  cache_in_step st
  /\ quotes (app_run evs st) = [Sample.asha]
  /\ cache_in_step (app_run evs st).
Proof.
  intros st evs.
  split; [reflexivity|]. split; [reflexivity|].
  apply (cache_follows_the_list evs st). reflexivity.
Defined.

(* ================================================================== *)
(** * Reading and writing the ledger *)

Section LedgerReading.

Context {R : Runtime}.

Lemma not_iterable_throws (c : cell) :
  not_iterable c -> exists e, (let* v := parse_item c in new_Set v) = Throws e.
Proof.
  intros [-> | [[b ->] | [[n ->] | [f ->]]]]; cbn [parse_item bind new_Set]; eauto.
Qed.

Lemma not_an_array_throws (c : cell) (ids : JSSet) :
  not_an_array c ->
  exists e, (let* legacyIds := parse_item c in migrate_legacy legacyIds ids) = Throws e.
Proof.
  intros [-> | (v & -> & Hv)]; cbn [parse_item bind]; [eauto|].
  destruct v; cbn [migrate_legacy]; eauto. discriminate Hv.
Qed.

(** X6: the ledger is read all or nothing.  When the content of one of its
    three keys cannot be made a set (a text that is not JSON, or the JSON of
    a number, a boolean or an object), or when the legacy ledger is not the
    JSON of an array, [getLocallyBlacklistedItems] gives three empty sets,
    whatever the other keys hold. *)
Theorem unreadable_key_empties_ledger (ls : LocalStorage) :
  not_iterable (bl_ids ls) \/ not_iterable (bl_numbers ls)
  \/ not_iterable (bl_fingerprints ls) \/ not_an_array (blacklistedIds ls) ->
  getLocallyBlacklistedItems ls = empty_blacklist.
Proof.
  intros H. unfold getLocallyBlacklistedItems.
  destruct (let* v := parse_item (bl_ids ls) in new_Set v) as [i|e1] eqn:E1;
    cbn [bind]; [|reflexivity].
  destruct (let* v := parse_item (bl_numbers ls) in new_Set v) as [n|e2] eqn:E2;
    cbn [bind]; [|reflexivity].
  destruct (let* v := parse_item (bl_fingerprints ls) in new_Set v) as [f|e3] eqn:E3;
    cbn [bind]; [|reflexivity].
  destruct H as [H | [H | [H | H]]].
  - apply not_iterable_throws in H as [e H]. congruence.
  - apply not_iterable_throws in H as [e H]. congruence.
  - apply not_iterable_throws in H as [e H]. congruence.
  - destruct (not_an_array_throws _ i H) as [e He].
    destruct (parse_item (blacklistedIds ls)) as [legacy|e4]; cbn [bind] in *;
      [|reflexivity].
    now rewrite He.
Qed.






End LedgerReading.

Lemma unreadable_key_empties_ledger_witness :
  not_an_array (blacklistedIds Sample.corrupted)
  /\ bl_ids Sample.corrupted = Parsed (VArr [VStr "q-7"])
  /\ getLocallyBlacklistedItems Sample.corrupted = empty_blacklist.
Proof.
  split; [left; reflexivity|]. split; [reflexivity|].
  apply unreadable_key_empties_ledger. right; right; right. left. reflexivity.
Defined.




(* ================================================================== *)
(** * The hash of [generateStableId] *)

Lemma to_int32_wraps (z : Z) : exists k : Z, Int32.to_int32 z = (z + 2 ^ 32 * k)%Z.
Proof.
  unfold Int32.to_int32. exists (- ((z + 2 ^ 31) / 2 ^ 32))%Z.
  pose proof (Z.div_mod (z + 2 ^ 31) (2 ^ 32) ltac:(lia)). lia.
Qed.

Lemma to_int32_congruent (a b k : Z) :
  a = (b + 2 ^ 32 * k)%Z -> Int32.to_int32 a = Int32.to_int32 b.
Proof.
  intros ->. unfold Int32.to_int32.
  replace (b + 2 ^ 32 * k + 2 ^ 31)%Z with (b + 2 ^ 31 + k * 2 ^ 32)%Z by lia.
  now rewrite Z.mod_add by lia.
Qed.

Lemma hash_step_31 (hash char : Z) :
  hash_step (Int32.to_int32 hash) char = Int32.to_int32 (31 * hash + char).
Proof.
  rewrite hash_step_int32. unfold Int32.shl. rewrite Z.shiftl_mul_pow2 by lia.
  destruct (to_int32_wraps hash) as [k1 H1].
  destruct (to_int32_wraps (Int32.to_int32 hash)) as [k2 H2].
  destruct (to_int32_wraps (Int32.to_int32 (Int32.to_int32 hash) * 2 ^ 5)) as [k3 H3].
  apply to_int32_congruent with (k := (32 * k2 + 32 * k1 + k3 - k1)%Z).
  rewrite H3, H2, H1. lia.
Qed.

Lemma hash_loop_poly31 (str : string) (hash : Z) :
  hash_loop str (Int32.to_int32 hash) = Int32.to_int32 (poly31 str hash).
Proof.
  revert hash; induction str as [|c str IH]; intros hash; cbn [hash_loop poly31];
    [reflexivity|].
  now rewrite hash_step_31, IH.
Qed.

(** X10: the hash of [generateStableId] is the number whose digits in base
    31 are the code units of the text, wrapped to a signed 32-bit integer
    (the hash code of a string in Java). *)
Theorem hash_is_base31_wrapped (str : string) :
  hash_loop str 0 = Int32.to_int32 (poly31 str 0).
Proof. exact (hash_loop_poly31 str 0). Qed.

(** X11: for a text that is not empty, [generateStableId] gives the digits of
    the absolute value of the hash in base 36: read back they give that
    value, which is at most 2^31, so the result is never the word "unknown"
    that stands for the empty text. *)
Theorem generateStableId_digits (str : string) :
  str <> "" ->
  read36 (generateStableId str) 0 = Z.abs (hash_loop str 0)
  /\ (0 <= read36 (generateStableId str) 0 <= 2 ^ 31)%Z
  /\ generateStableId str <> "unknown".
Proof.
  intros Hstr.
  assert (Hid : generateStableId str = toString36 (Z.abs (hash_loop str 0))).
  { unfold generateStableId. destruct str; [now elim Hstr | reflexivity]. }
  pose proof (hash_loop_range str 0 ltac:(lia)) as Hrange.
  rewrite Hid, read36_toString36 by lia.
  split; [reflexivity|]. split; [lia|].
  intros H. apply (f_equal (fun s => read36 s 0)) in H.
  rewrite read36_toString36 in H by lia.
  change (read36 "unknown" 0) with 66728889815%Z in H. lia.
Qed.

Lemma generateStableId_digits_witness :
  "ravi|2024-01-05|q-1" <> ""
  /\ generateStableId "ravi|2024-01-05|q-1" = "956ddj"
  /\ read36 "956ddj" 0 = Z.abs (hash_loop "ravi|2024-01-05|q-1" 0).
Proof.
  split; [discriminate|]. split; [reflexivity|].
  apply (generateStableId_digits "ravi|2024-01-05|q-1"). discriminate.
Defined.

(* ================================================================== *)
(** * What a normalised record looks like *)

Lemma includes_char_split_head (c : ascii) (s : string) :
  includes_char c (split_head c s) = false.
Proof.
  induction s as [|d s IH]; cbn [split_head]; [reflexivity|].
  destruct (Ascii.eqb d c) eqn:E; [reflexivity|].
  cbn [includes_char]. now rewrite E, IH.
Qed.

Section NormalisedShape.

Context {R : Runtime}.

Lemma normalized_id_usable (now : string) (data : jsval) :
  isMissingId (id (normalized now data)) = false.
Proof.
  cbn [id normalized]. unfold id_of.
  destruct (isMissingId (raw_id_of data)) eqn:H; [reflexivity | exact H].
Qed.

Lemma normalized_date_without_T (now : string) (data : jsval) :
  includes_char "T" (date (normalized now data)) = false.
Proof.
  cbn [date normalized]. unfold dateStr_of.
  destruct (is_empty (date_text data)); [apply includes_char_split_head|].
  unfold date_text.
  set (dateStr := trim _).
  destruct (includes_char "T" dateStr) eqn:H; [apply includes_char_split_head | exact H].
Qed.


(** X12: whatever record [normalizeQuote] returns has an identifier that is
    none of the empty text, "undefined" and "null", a date without the
    letter T (so without the time of an ISO date), a quote number and a
    customer name without white space at their ends, and a status that is
    not empty. *)
Theorem normalizeQuote_shape (now : string) (data : jsval) (q : Quotation) :
  normalizeQuote now data = Returns q ->
  isMissingId (id q) = false
  /\ includes_char "T" (date q) = false
  /\ trim (quoteNumber q) = quoteNumber q
  /\ trim (customerName q) = customerName q
  /\ truthy (status q) = true.
Proof.
  unfold normalizeQuote. destruct (is_nullish data); [discriminate|].
  intros [= <-].
  split; [apply normalized_id_usable|].
  split; [apply normalized_date_without_T|].
  cbn [quoteNumber customerName status normalized].
  unfold quoteNum_of, customer_of. rewrite !trim_idem.
  repeat split.
  unfold js_or. destruct (truthy (prop data "status")) eqn:H; [exact H | reflexivity].
Qed.



End NormalisedShape.

Lemma normalizeQuote_shape_witness :
  exists q : Quotation,
    normalizeQuote Example.jan5 Sample.dated = Returns q
    /\ id q = "q-5" /\ date q = "2023-10-25"
    /\ isMissingId (id q) = false /\ includes_char "T" (date q) = false.
Proof.
  eexists. split; [reflexivity|]. split; [reflexivity|]. split; [reflexivity|].
  destruct (normalizeQuote_shape (R := Example.runtime) Example.jan5 Sample.dated _
              eq_refl) as (Hid & Hdate & _).
  split; [exact Hid | exact Hdate].
Defined.



(* ================================================================== *)
(** * Saving and editing *)

Section Saving.

Context {R : Runtime}.

Lemma replace_by_id_none (quote : Quotation) (qs : list Quotation) :
  replace_by_id quote qs = None <-> existsb (id_is (id quote)) qs = false.
Proof.
  induction qs as [|q qs IH]; cbn [replace_by_id existsb]; [tauto|].
  unfold id_is at 1. destruct (String.eqb (id q) (id quote)); cbn [orb].
  - split; discriminate.
  - rewrite <- IH. destruct (replace_by_id quote qs); split; congruence.
Qed.

Lemma replace_by_id_some (quote : Quotation) (qs qs' : list Quotation) :
  replace_by_id quote qs = Some qs' ->
  List.length qs' = List.length qs
  /\ In quote qs'
  /\ (forall q, In q qs -> id q <> id quote -> In q qs')
  /\ map id qs' = map id qs
  /\ replace_by_id quote qs' = Some qs'.
Proof.
  revert qs'; induction qs as [|q qs IH]; intros qs'; cbn [replace_by_id];
    [discriminate|].
  destruct (String.eqb (id q) (id quote)) eqn:E.
  - intros [= <-]. apply String.eqb_eq in E.
    repeat split; cbn [List.length In map replace_by_id]; auto.
    + intros q0 [<- | H] Hq0; [congruence | auto].
    + now rewrite E.
    + now rewrite String.eqb_refl.
  - destruct (replace_by_id quote qs) as [rest|]; [|discriminate].
    intros [= <-]. destruct (IH rest eq_refl) as (Hlen & Hin & Hkeep & Hids & Hagain).
    repeat split; cbn [List.length In map replace_by_id]; auto.
    + intros q0 [<- | H] Hq0; auto.
    + now rewrite Hids.
    + now rewrite E, Hagain.
Qed.

Lemma replace_by_id_appended (quote : Quotation) (qs : list Quotation) :
  replace_by_id quote qs = None ->
  replace_by_id quote (qs ++ [quote]) = Some (qs ++ [quote])%list.
Proof.
  induction qs as [|q qs IH]; cbn [replace_by_id app].
  - now rewrite String.eqb_refl.
  - destruct (String.eqb (id q) (id quote)); [discriminate|].
    destruct (replace_by_id quote qs); [discriminate|].
    intros _. now rewrite (IH eq_refl).
Qed.

(** The list [handleSaveQuote] shows. *)
Lemma handleSaveQuote_start_quotes (st : AppState) (quote : Quotation) :
  let st' := state_after (handleSaveQuote_start quote) st in
  quotes st' = match replace_by_id quote (quotes st) with
               | Some qs' => qs'
               | None => (quotes st ++ [quote])%list
               end
  /\ view st' = view_list /\ selectedQuote st' = None
  /\ tyreQuotes (localStorage st') = Some (quotes st')
  /\ errorMsg st' = errorMsg st
  /\ (sheetsService st && useGoogleSheets st = true ->
      pauseSync st' = true /\ isSyncing st' = true)
  /\ sheetsService st' = sheetsService st
  /\ useGoogleSheets st' = useGoogleSheets st.
Proof.
  unfold handleSaveQuote_start. crunch_handler;
    cbn [sheetsService useGoogleSheets with_view with_quotes with_selectedQuote
         with_localStorage] in *;
    repeat split; intros; try reflexivity; try discriminate; congruence.
Qed.

Lemma handleSaveQuote_start_holds (st : AppState) (quote : Quotation) :
  In quote (quotes (state_after (handleSaveQuote_start quote) st)).
Proof.
  destruct (handleSaveQuote_start_quotes st quote) as (Hq & _). rewrite Hq.
  destruct (replace_by_id quote (quotes st)) as [qs'|] eqn:E.
  - now destruct (replace_by_id_some quote _ _ E) as (_ & Hin & _).
  - apply in_or_app. right. now left.
Qed.

(** X15: saving puts the quotation into the list in the place of the first
    quotation of its identifier, or at the end when there is none, and goes
    back to the list view with nothing selected: the quotation is in the
    list, the others of another identifier are still there, the length grows
    by one only for a new identifier, and saving the same quotation again
    changes nothing in the list. *)
Theorem handleSaveQuote_upserts (st : AppState) (quote : Quotation) :
  let st' := state_after (handleSaveQuote_start quote) st in
  In quote (quotes st')
  /\ (forall q, In q (quotes st) -> id q <> id quote -> In q (quotes st'))
  /\ List.length (quotes st')
     = (if existsb (id_is (id quote)) (quotes st) then List.length (quotes st)
        else S (List.length (quotes st)))
  /\ view st' = view_list /\ selectedQuote st' = None
  /\ quotes (state_after (handleSaveQuote_start quote) st') = quotes st'.
Proof.
  intros st'.
  destruct (handleSaveQuote_start_quotes st quote) as (Hq & Hview & Hsel & _).
  destruct (handleSaveQuote_start_quotes st' quote) as (Hq' & _).
  fold st' in Hq, Hview, Hsel. rewrite Hq'.
  destruct (replace_by_id quote (quotes st)) as [qs'|] eqn:E.
  - destruct (replace_by_id_some quote _ _ E) as (Hlen & Hin & Hkeep & _ & Hagain).
    assert (Hex : existsb (id_is (id quote)) (quotes st) = true).
    { destruct (existsb _ _) eqn:Hex; [reflexivity|].
      apply replace_by_id_none in Hex. congruence. }
    rewrite Hex, Hq, Hagain. repeat split; auto.
  - pose proof (replace_by_id_appended quote _ E) as Hagain.
    apply replace_by_id_none in E as Hex.
    rewrite Hex, Hq, Hagain. repeat split; auto.
    + apply in_or_app. right. now left.
    + intros q Hin _. apply in_or_app. now left.
    + rewrite length_app. cbn [List.length]. lia.
Qed.

(** X16: editing a quotation of the list opens the form on it, and saving
    a quotation under the same identifier then puts it in its place: the
    list keeps its length and its identifiers in their order, and the view
    is the list again with nothing selected.  Editing an identifier that is
    not in the list does nothing. *)
Theorem edit_then_save (st : AppState) (i : string) (q quote : Quotation) :
  find (id_is i) (quotes st) = Some q -> id quote = i ->
  let editing := state_after (handleEditQuote i) st in
  let saved := state_after (handleSaveQuote_start quote) editing in
  selectedQuote editing = Some q /\ view editing = view_form
  /\ quotes editing = quotes st
  /\ In quote (quotes saved)
  /\ map id (quotes saved) = map id (quotes st)
  /\ view saved = view_list /\ selectedQuote saved = None
  /\ (forall j, find (id_is j) (quotes st) = None ->
                handleEditQuote j st = (tt, st, [])).
Proof.
  intros Hfind Hid editing saved.
  assert (Hediting : selectedQuote editing = Some q /\ view editing = view_form
                     /\ quotes editing = quotes st).
  { unfold editing, handleEditQuote. run_handler. rewrite Hfind. repeat split. }
  destruct Hediting as (Hsel & Hview & Hquotes).
  destruct (handleSaveQuote_start_quotes editing quote) as (Hq & Hview' & Hsel' & _).
  fold saved in Hq, Hview', Hsel'. rewrite Hquotes in Hq.
  destruct (replace_by_id quote (quotes st)) as [qs'|] eqn:E.
  - destruct (replace_by_id_some quote _ _ E) as (_ & Hin & _ & Hids & _).
    rewrite Hq. repeat split; auto.
    intros j Hj. unfold handleEditQuote. run_handler. now rewrite Hj.
  - exfalso. apply replace_by_id_none in E.
    apply find_some in Hfind as [Hin Hq0].
    assert (Hex : existsb (id_is (id quote)) (quotes st) = true).
    { apply existsb_exists. exists q. split; [exact Hin | now rewrite Hid]. }
    congruence.
Qed.

(** X17: what becomes of an upload.  With a service, [handleSaveQuote]
    raises the pause and the syncing flag before it calls [saveQuote].  When
    the upload fails, the user is alerted, both flags drop at once, and the
    quotation stays in the list and in its cache.  When it goes through, the
    pause stays up and a 2 s timer is set, whose callback drops the pause
    and starts a background fetch. *)
Theorem upload_outcomes (st : AppState) (quote : Quotation) (e : JSError) :
  sheetsService st = true -> useGoogleSheets st = true ->
  let uploading := state_after (handleSaveQuote_start quote) st in
  let failed := state_after (handleSaveQuote_resume (Throws e)) uploading in
  let sent := state_after (handleSaveQuote_resume (Returns tt)) uploading in
  (pauseSync uploading = true /\ isSyncing uploading = true
   /\ In (CallSaveQuote quote) (effects_of (handleSaveQuote_start quote) st))
  /\ (effects_of (handleSaveQuote_resume (Throws e)) uploading
      = [Alert; PauseSync false]
      /\ pauseSync failed = false /\ isSyncing failed = false
      /\ In quote (quotes failed)
      /\ tyreQuotes (localStorage failed) = Some (quotes failed))
  /\ (effects_of (handleSaveQuote_resume (Returns tt)) uploading = [SetTimeout 2000]
      /\ pauseSync sent = true /\ isSyncing sent = false
      /\ handleSaveQuote_timer sent
         = (true, with_errorMsg None (with_pauseSync false sent),
            [PauseSync false; CallFetchQuotes])).
Proof.
  intros Hservice Huse uploading failed sent.
  destruct (handleSaveQuote_start_quotes st quote)
    as (Hq & _ & _ & Hcache & _ & Hflags & _).
  fold uploading in Hq, Hcache, Hflags.
  destruct Hflags as [Hpause Hsync]; [now rewrite Hservice, Huse|].
  pose proof (handleSaveQuote_start_holds st quote) as Hin.
  fold uploading in Hin.
  split; [|split].
  - repeat split; try assumption.
    unfold handleSaveQuote_start. crunch_handler;
      cbn [sheetsService useGoogleSheets with_view with_quotes with_selectedQuote
           with_localStorage] in *;
      try (rewrite Hservice, Huse in *; discriminate);
      cbn [app In]; auto 10.
  - repeat split; assumption.
  - repeat split; assumption.
Qed.

End Saving.

Lemma edit_then_save_witness :
  let st := Example.showing [Example.ravi; Sample.asha] (Example.storage Absent) in
  let quote := Example.draft "q-7" "2024-01-09" "Ravi Kumar" "Q-1" in
  let saved := state_after (handleSaveQuote_start quote)
                 (state_after (handleEditQuote "q-7") st) in
  find (id_is "q-7") (quotes st) = Some Example.ravi
  /\ quotes saved = [quote; Sample.asha]
  /\ map id (quotes saved) = map id (quotes st).
Proof.
  intros st quote saved. split; [reflexivity|]. split; [reflexivity|].
  apply (edit_then_save st "q-7" Example.ravi quote eq_refl eq_refl).
Defined.

Lemma upload_outcomes_witness :
  let st := Example.showing [] (Example.storage Absent) in
  let uploading := state_after (handleSaveQuote_start Example.ravi) st in
  let failed := state_after (handleSaveQuote_resume (Throws FetchRejected)) uploading in
  sheetsService st = true
  /\ pauseSync uploading = true
  /\ pauseSync failed = false
  /\ quotes failed = [Example.ravi]
  /\ tyreQuotes (localStorage failed) = Some (quotes failed).
Proof.
  intros st uploading failed.
  destruct (upload_outcomes st Example.ravi FetchRejected eq_refl eq_refl)
    as ((Hpause & _) & (_ & Hdrop & _ & _ & Hcache) & _).
  split; [reflexivity|]. split; [exact Hpause|]. split; [exact Hdrop|].
  split; [reflexivity | exact Hcache].
Defined.

(* ================================================================== *)
(** * Distinct identifiers *)

Section DistinctIds.

Context {R : Runtime}.

Lemma distinct_ids_filter (f : Quotation -> bool) (qs : list Quotation) :
  distinct_ids qs -> distinct_ids (filter f qs).
Proof.
  unfold distinct_ids. induction qs as [|q qs IH]; cbn [filter map]; [auto|].
  intros H. inversion H as [|x l Hnotin Hrest]; subst.
  destruct (f q); cbn [map]; [|auto].
  constructor; [|auto].
  intros Hin. apply Hnotin. apply in_map_iff in Hin as (q' & Hid & Hq').
  apply filter_In in Hq' as [Hq' _]. apply in_map_iff. eauto.
Qed.

Lemma distinct_ids_saved (quote : Quotation) (qs : list Quotation) :
  distinct_ids qs ->
  distinct_ids match replace_by_id quote qs with
               | Some qs' => qs'
               | None => (qs ++ [quote])%list
               end.
Proof.
  unfold distinct_ids. intros H.
  destruct (replace_by_id quote qs) as [qs'|] eqn:E.
  - destruct (replace_by_id_some quote _ _ E) as (_ & _ & _ & Hids & _).
    now rewrite Hids.
  - apply replace_by_id_none in E. rewrite map_app. cbn [map].
    apply NoDup_app; [exact H | repeat constructor; intros [] |].
    intros i Hin [<- | []]. apply in_map_iff in Hin as (q & Hid & Hq).
    assert (Hex : existsb (id_is (id quote)) qs = true).
    { apply existsb_exists. exists q. split; [exact Hq|].
      unfold id_is. now apply String.eqb_eq. }
    congruence.
Qed.

Lemma app_step_distinct (st : AppState) (ev : AppEvent) :
  fetch_is_distinct ev ->
  cache_in_step st /\ distinct_ids (quotes st) ->
  distinct_ids (quotes (app_step st ev)).
Proof.
  intros Hev [Hcache H].
  destruct ev; cbn [app_step fetch_is_distinct] in *.
  - unfold handleDeleteQuote. crunch_handler; now apply distinct_ids_filter.
  - exact H.
  - exact H.
  - destruct (handleSaveQuote_start_quotes st quote) as (-> & _).
    now apply distinct_ids_saved.
  - unfold handleSaveQuote_resume. crunch_handler; exact H.
  - unfold handleSaveQuote_timer, fetchRemoteQuotes_start. crunch_handler; exact H.
  - unfold cache_in_step in Hcache.
    unfold handleRefresh, fetchRemoteQuotes_start, loadFromLocalStorage.
    crunch_handler; cbn [localStorage with_pauseSync] in *; try exact H.
    congruence.
  - unfold backgroundSync, fetchRemoteQuotes_start. crunch_handler; exact H.
  - unfold fetchRemoteQuotes_resume. crunch_handler; try exact H.
    all: now apply distinct_ids_filter.
  - unfold handleEditQuote. crunch_handler; exact H.
  - exact H.
  - exact H.
  - exact H.
Qed.

(** X18: the quotations of the list keep distinct identifiers.  From a list
    of distinct identifiers whose cache is in step, whatever the user does
    and whatever the timers do, the identifiers of the list stay distinct as
    long as every fetch that returns brings distinct identifiers. *)
Theorem identifiers_stay_distinct (evs : list AppEvent) (st : AppState) :
  cache_in_step st -> distinct_ids (quotes st) ->
  Forall fetch_is_distinct evs ->
  distinct_ids (quotes (app_run evs st)).
Proof.
  revert st; induction evs as [|ev evs IH]; intros st Hcache H Hevs; [exact H|].
  inversion Hevs as [|x l Hev Hrest]; subst.
  cbn [app_run fold_left]. apply IH; [| |exact Hrest].
  - now apply app_step_cache.
  - now apply app_step_distinct.
Qed.

End DistinctIds.

Lemma identifiers_stay_distinct_witness :
  let st := state_after (handleSaveQuote_start Example.ravi)
              (Example.showing [] (Example.storage Absent)) in
  let evs := [UserSaves Sample.asha; UserSaves Example.ravi; UserEdits "q-3";
              UserSaves Sample.asha] in
  cache_in_step st
  /\ quotes (app_run evs st) = [Example.ravi; Sample.asha]
  /\ distinct_ids (quotes (app_run evs st)).
Proof.
  intros st evs. split; [reflexivity|]. split; [reflexivity|].
  apply (identifiers_stay_distinct evs st).
  - reflexivity.
  - repeat constructor; cbn; intuition discriminate.
  - repeat constructor.
Defined.

(* ================================================================== *)
(** * A refresh by hand, and a fetch that fails *)

Section Refresh.

Context {R : Runtime}.


End Refresh.


(* ================================================================== *)
(** * Deleting: the list, the selection, an unknown identifier *)

Section Deleting.

Context {R : Runtime}.



End Deleting.

(* ================================================================== *)
(** * The bodies of the requests *)

Section Bodies.

Context {R : Runtime}.

Lemma lookup_obj_set (key key' : string) (v : jsval) (fields : list (string * jsval)) :
  lookup key (obj_set key' v fields)
  = if String.eqb key' key then v else lookup key fields.
Proof.
  induction fields as [|[k w] rest IH]; cbn [obj_set lookup].
  - destruct (String.eqb key' key); reflexivity.
  - destruct (String.eqb k key') eqn:E; cbn [lookup].
    + apply String.eqb_eq in E. subst k.
      destruct (String.eqb key' key); reflexivity.
    + rewrite IH. destruct (String.eqb key' key) eqn:E'; [|reflexivity].
      apply String.eqb_eq in E'. subst key'. now rewrite E.
Qed.

(** X21: the body of the soft delete is the quotation with four properties
    set: [status] is Deleted, [Id] and [ID] are the identifier and
    [quote_number] is the quote number; every other property reads as in
    the quotation.  The body of a save is the quotation as it is. *)
Theorem soft_delete_body (quote : Quotation) (key : string) :
  lookup key (softDeleteQuote quote)
  = (if String.eqb key "quote_number" then VStr (quoteNumber quote)
     else if String.eqb key "ID" then VStr (id quote)
     else if String.eqb key "Id" then VStr (id quote)
     else if String.eqb key "status" then VStr "Deleted"
     else lookup key (Quotation_fields quote))
  /\ req_body (saveQuote_request quote)
     = VObj [("action", VStr "save"); ("quote", VObj (Quotation_fields quote))].
Proof.
  split; [|reflexivity].
  unfold softDeleteQuote. rewrite !lookup_obj_set.
  rewrite !(String.eqb_sym key). reflexivity.
Qed.

End Bodies.

(* ================================================================== *)
(** * When a card cannot be drawn *)

Section CardErrors.

Context {R : Runtime}.





End CardErrors.

